(** * Tender monitor: change detection, notification and history store

    A shallow embedding of the change-detection pipeline of the tender
    monitor: [PCCWebScraper] (web_scraper_notitle.py), [LineNotifier]
    (line_notifier.py) and [MonitoringSystem.run_monitoring_job]
    (monitor_system.py).

    Python values are embedded as follows.
    - [str] is a list of Unicode code points ([pystr]); the literals of the
      source are written as UTF-8 strings and decoded by [text].
    - a tender is a dict of strings with string keys, kept as the list of
      its items in insertion order ([dict]); the history, the dict from tender
      id to tender, is a [gmap].
    - a method that logs, reads or writes a file, calls the LINE API or
      mutates [self.tender_history] is a computation in the monad [M]: a
      function from the [world] to an [outcome] (a returned value or a raised
      exception) and the new world.
    - what the outside world answers is an input: the HTTP exchange
      ([http_outcome]), the clock ([now]), the content of the history file
      ([content]) and the answers of the LINE API ([line_api]). *)

From Stdlib Require Import ZArith NArith List Ascii String Decimal DecimalString Lia.
From stdpp Require Import base option list gmap.
From Stdlib Require DecimalZ DecimalPos.

Local Open Scope N_scope.
#[local] Set Warnings "-clear-no-such-hyp".

(** ** Text *)

(** A Python [str]: the sequence of its code points. *)
Abbreviation pystr := (list N).

Definition bytes_of_string (s : string) : list N :=
  map N_of_ascii (list_ascii_of_string s).

Definition is_continuation (b : N) : bool := (0x80 <=? b) && (b <=? 0xBF).

(** Strict UTF-8 decoding (no overlong forms, no surrogates, nothing above
    U+10FFFF), as Python's ['utf-8'] codec does it. *)
Fixpoint utf8_decode (bs : list N) : option pystr :=
  match bs with
  | [] => Some []
  | b0 :: r0 =>
      if b0 <? 0x80 then cons b0 <$> utf8_decode r0
      else if (0xC2 <=? b0) && (b0 <=? 0xDF) then
        match r0 with
        | b1 :: r1 =>
            if is_continuation b1
            then cons ((b0 - 0xC0) * 0x40 + (b1 - 0x80)) <$> utf8_decode r1
            else None
        | _ => None
        end
      else if (0xE0 <=? b0) && (b0 <=? 0xEF) then
        match r0 with
        | b1 :: b2 :: r2 =>
            let c := (b0 - 0xE0) * 0x1000 + (b1 - 0x80) * 0x40 + (b2 - 0x80) in
            if is_continuation b1 && is_continuation b2
               && (0x800 <=? c) && negb ((0xD800 <=? c) && (c <=? 0xDFFF))
            then cons c <$> utf8_decode r2
            else None
        | _ => None
        end
      else if (0xF0 <=? b0) && (b0 <=? 0xF4) then
        match r0 with
        | b1 :: b2 :: b3 :: r3 =>
            let c := (b0 - 0xF0) * 0x40000 + (b1 - 0x80) * 0x1000
                     + (b2 - 0x80) * 0x40 + (b3 - 0x80) in
            if is_continuation b1 && is_continuation b2 && is_continuation b3
               && (0x10000 <=? c) && (c <=? 0x10FFFF)
            then cons c <$> utf8_decode r3
            else None
        | _ => None
        end
      else None
  end.

(** The [str] a literal of the (UTF-8) source denotes. *)
Definition text (s : string) : pystr :=
  default [] (utf8_decode (bytes_of_string s)).

Definition LF : N := 0x0A.
Definition SLASH : N := 0x2F.

(** [str.isspace] of one character (CPython's [_PyUnicode_IsWhitespace]). *)
Definition isspace (c : N) : bool :=
  ((0x09 <=? c) && (c <=? 0x0D)) || ((0x1C <=? c) && (c <=? 0x20))
  || (c =? 0x85) || (c =? 0xA0) || (c =? 0x1680)
  || ((0x2000 <=? c) && (c <=? 0x200A))
  || (c =? 0x2028) || (c =? 0x2029) || (c =? 0x202F) || (c =? 0x205F)
  || (c =? 0x3000).

(** The first code point of every run of ten decimal digits (general category
    Nd, Unicode 15.0), apart from the mathematical digits U+1D7CE..U+1D7FF. *)
Definition decimal_zeros : list N :=
  [ 0x0030; 0x0660; 0x06F0; 0x07C0; 0x0966; 0x09E6; 0x0A66; 0x0AE6; 0x0B66;
    0x0BE6; 0x0C66; 0x0CE6; 0x0D66; 0x0DE6; 0x0E50; 0x0ED0; 0x0F20; 0x1040;
    0x1090; 0x17E0; 0x1810; 0x1946; 0x19D0; 0x1A80; 0x1A90; 0x1B50; 0x1BB0;
    0x1C40; 0x1C50; 0xA620; 0xA8D0; 0xA900; 0xA9D0; 0xA9F0; 0xAA50; 0xABF0;
    0xFF10; 0x104A0; 0x10D30; 0x11066; 0x110F0; 0x11136; 0x111D0; 0x112F0;
    0x11450; 0x114D0; 0x11650; 0x116C0; 0x11730; 0x118E0; 0x11950; 0x11C50;
    0x11D50; 0x11DA0; 0x11F50; 0x16A60; 0x16AC0; 0x16B50; 0x1E140; 0x1E2F0;
    0x1E4F0; 0x1E950; 0x1FBF0 ].

(** What [\d] matches in a [str] pattern: a Unicode decimal digit. *)
Definition isdecimal (c : N) : bool :=
  existsb (fun z => (z <=? c) && (c <=? z + 9)) decimal_zeros
  || ((0x1D7CE <=? c) && (c <=? 0x1D7FF)).

Fixpoint drop_while {A} (p : A -> bool) (l : list A) : list A :=
  match l with
  | [] => []
  | x :: l' => if p x then drop_while p l' else l
  end.

(** [s.strip()] *)
Definition strip (s : pystr) : pystr :=
  rev (drop_while isspace (rev (drop_while isspace s))).

(** [s.split('\n', 1)]: the part before the first line feed and, when there
    is one, the part after it. *)
Fixpoint split_line (s : pystr) : pystr * option pystr :=
  match s with
  | [] => ([], None)
  | c :: s' =>
      if c =? LF then ([], Some s')
      else let '(hd, tl) := split_line s' in (c :: hd, tl)
  end.

(** [s.startswith('/')] *)
Definition startswith_slash (s : pystr) : bool :=
  match s with
  | c :: _ => c =? SLASH
  | [] => false
  end.

(** [sep.join(parts)] *)
Fixpoint join (sep : pystr) (parts : list pystr) : pystr :=
  match parts with
  | [] => []
  | [p] => p
  | p :: ps => p ++ sep ++ join sep ps
  end.

(** [re.match(r'^\d+$', s)] is not [None]: one or more decimal digits, then
    the end of [s] or a single line feed that ends [s]. *)
Fixpoint match_digits_end (s : pystr) : bool :=
  match s with
  | [] => true
  | c :: s' =>
      if isdecimal c then match_digits_end s'
      else (c =? LF) && match s' with [] => true | _ => false end
  end.

Definition re_match_integer (s : pystr) : bool :=
  match s with
  | c :: s' => isdecimal c && match_digits_end s'
  | [] => false
  end.

(** [str(n)] of a natural number. *)
Definition str_of_nat (n : nat) : pystr :=
  bytes_of_string (NilZero.string_of_uint (Nat.to_uint n)).

(** ** Dicts *)

(** A dict from strings to strings: its items, in insertion order, with
    distinct keys. *)
Abbreviation dict := (list (pystr * pystr)).

(** [d.get(key)]: the value under [key], or [None]. *)
Fixpoint dict_lookup (d : dict) (key : pystr) : option pystr :=
  match d with
  | [] => None
  | (k, v) :: d' => if bool_decide (k = key) then Some v else dict_lookup d' key
  end.

(** [d.get(key, dflt)] *)
Definition dict_get (d : dict) (key : string) (dflt : pystr) : pystr :=
  default dflt (dict_lookup d (text key)).

(** ** The fetched page

    BeautifulSoup is not part of the program; a page is modelled by what the
    scraper's selectors return on it. A cell is a [td] element: its text
    fragments in document order and the attributes of its first [a] element,
    if it has one. A row is the list [row.select('td')], a results table is
    the list [main_table.select('tr')], and a page is
    [soup.select_one('table.tb_01')]: its results table, if it has one. *)

Record cell := Cell {
  strings : list pystr;
  first_anchor : option dict
}.

Abbreviation row := (list cell).

(** [cell.text] *)
Definition cell_text (c : cell) : pystr := concat (strings c).

(** [cell.get_text(separator='\n')] *)
Definition cell_get_text_lines (c : cell) : pystr := join [LF] (strings c).

(** ** Tenders and the history *)

(** A tender is a dict of strings; the history maps a tender id to the
    tender first seen under it. *)
Abbreviation tender := (list (pystr * pystr)).
Abbreviation history := (gmap pystr (list (pystr * pystr))).

(** ** Exceptions, effects and the world *)

Inductive exn :=
  | ConnectionError                 (* requests: the exchange failed *)
  | HTTPError (status : N)          (* requests: raised by raise_for_status *)
  | LineBotApiError (status : N)    (* linebot: the API answered with an error *)
  | UnicodeDecodeError
  | JSONDecodeError
  | RecursionError
  | IndexError
  | KeyError (key : pystr).

(** [except requests.RequestException]: both exceptions of [requests] are
    subclasses of it. *)
Definition is_RequestException (e : exn) : bool :=
  match e with ConnectionError | HTTPError _ => true | _ => false end.

Definition is_LineBotApiError (e : exn) : bool :=
  match e with LineBotApiError _ => true | _ => false end.

Definition is_JSONDecodeError (e : exn) : bool :=
  match e with JSONDecodeError => true | _ => false end.

(** [except Exception] *)
Definition is_Exception (e : exn) : bool := true.

(** What the HTTP exchange of one search gives: [requests.get] raises, or
    returns a response with a status code and a body, seen as the page
    BeautifulSoup makes of it. (A body the parser rejects is not
    modelled.) *)
Inductive http_outcome :=
  | NetworkFailure
  | Response (status_code : N) (page : option (list row)).

(** What data/tender_history.json holds, by what [json.load] does with it:
    bytes that are not UTF-8, on which reading raises [UnicodeDecodeError];
    text on which [json.load] raises [JSONDecodeError]; text nested deeper
    than the interpreter recurses, on which it raises [RecursionError]; or
    the JSON object of a history, as [_save_history] writes it, which it
    returns as a dict. (A file that holds another JSON value, such as a list
    or [null], is not modelled: [json.load] returns that value as it is.) *)
Inductive content :=
  | NotUTF8
  | NotJSON
  | TooDeep
  | JSONDocument (h : history).

(** What data/last_run.txt is to [_get_last_run]: missing, a text, or a file
    on which [open] or [read] raises (it cannot be opened, or its bytes
    cannot be decoded). *)
Inductive last_run :=
  | LastRunMissing
  | LastRunText (s : pystr)
  | LastRunUnreadable (e : exn).

(** How the LINE API answers one call. *)
Inductive api_outcome :=
  | Accepted
  | Failed (e : exn).

Inductive level := INFO | WARNING | ERROR.

(** The lines the program logs. *)
Inductive logline :=
  | HistoryDecodeError
  | Searching
  | DateRange
  | SearchURL
  | SavedResponse
  | NoResultsTable
  | NoDataRows
  | FoundDataRows (n : nat)
  | FoundNewTenders (n : nat)
  | ErrorSearching (e : exn)
  | InsufficientCells (n : nat)
  | ErrorParsingRow (e : exn)
  | SentToLine
  | ErrorSending (e : exn)
  | JobStarting
  | JobLastRun (last_run : pystr)
  | JobSearching
  | JobFound (n : nat)
  | NotificationsSent
  | NotificationsFailed
  | NoNewTenders
  | JobCompleted
  | JobError (e : exn).

(** The effects of the program on the outside, in the order they happen. *)
Inductive event :=
  | Log (l : level) (line : logline)
  | WriteHistory (h : history)          (* data/tender_history.json rewritten *)
  | WriteDebugPage                      (* data/search_response.html written *)
  | WriteLastRun (now : pystr)          (* data/last_run.txt rewritten *)
  | Push (user_id message : pystr)      (* line_bot_api.push_message *)
  | Broadcast (message : pystr).        (* line_bot_api.broadcast *)

Record world := World {
  tender_history : history;             (* self.tender_history of the scraper *)
  history_file : option content;        (* data/tender_history.json, if it exists *)
  line_api : nat -> api_outcome;        (* the answer of the LINE API to its n-th call *)
  api_calls : nat;                      (* the calls made to the LINE API so far *)
  last_run_file : last_run;             (* data/last_run.txt *)
  trace : list event
}.

Inductive outcome (A : Type) :=
  | Return (a : A)
  | Raise (e : exn).
Arguments Return {A} a.
Arguments Raise {A} e.

Definition M (A : Type) : Type := world -> outcome A * world.

Definition ret {A} (a : A) : M A := fun w => (Return a, w).

Definition raise {A} (e : exn) : M A := fun w => (Raise e, w).

Definition bind {A B} (m : M A) (k : A -> M B) : M B :=
  fun w =>
    match m w with
    | (Return a, w') => k a w'
    | (Raise e, w') => (Raise e, w')
    end.

(** [try: body  except C as e: handler e], where [catches] tells the
    exceptions of class [C]. *)
Definition try_except {A} (body : M A) (catches : exn -> bool)
    (handler : exn -> M A) : M A :=
  fun w =>
    match body w with
    | (Return a, w') => (Return a, w')
    | (Raise e, w') => if catches e then handler e w' else (Raise e, w')
    end.

Declare Scope monad_scope.
Delimit Scope monad_scope with monad.
Notation "x <- m ;; k" := (bind m (fun x => k))
  (at level 100, m at next level, k at level 200, right associativity) : monad_scope.
Notation "m ;; k" := (bind m (fun _ => k))
  (at level 100, k at level 200, right associativity) : monad_scope.
Local Open Scope monad_scope.

(** Updates of one field of the world. *)
Definition add_events (evs : list event) (w : world) : world :=
  {| tender_history := tender_history w; history_file := history_file w;
     line_api := line_api w; api_calls := api_calls w;
     last_run_file := last_run_file w; trace := trace w ++ evs |}.

Definition with_history (h : history) (w : world) : world :=
  {| tender_history := h; history_file := history_file w;
     line_api := line_api w; api_calls := api_calls w;
     last_run_file := last_run_file w; trace := trace w |}.

Definition with_file (f : option content) (w : world) : world :=
  {| tender_history := tender_history w; history_file := f;
     line_api := line_api w; api_calls := api_calls w;
     last_run_file := last_run_file w; trace := trace w |}.

Definition with_calls (n : nat) (w : world) : world :=
  {| tender_history := tender_history w; history_file := history_file w;
     line_api := line_api w; api_calls := n;
     last_run_file := last_run_file w; trace := trace w |}.

Definition with_last_run (f : last_run) (w : world) : world :=
  {| tender_history := tender_history w; history_file := history_file w;
     line_api := line_api w; api_calls := api_calls w;
     last_run_file := f; trace := trace w |}.

Definition emit (e : event) : M unit :=
  fun w => (Return tt, add_events [e] w).

Definition log (l : level) (line : logline) : M unit := emit (Log l line).

Definition get_history : M history := fun w => (Return (tender_history w), w).

Definition set_history (h : history) : M unit :=
  fun w => (Return tt, with_history h w).

Definition read_history_file : M (option content) :=
  fun w => (Return (history_file w), w).

(** The file is replaced by the JSON document of [h]; the write is taken to
    succeed. *)
Definition write_history_file (h : history) : M unit :=
  fun w => (Return tt, add_events [WriteHistory h] (with_file (Some (JSONDocument h)) w)).

Definition read_last_run_file : M last_run :=
  fun w => (Return (last_run_file w), w).

(** The file is replaced by the text [s]; the write is taken to succeed. *)
Definition write_last_run_file (s : pystr) : M unit :=
  fun w => (Return tt, add_events [WriteLastRun s] (with_last_run (LastRunText s) w)).

(** One call to the LINE API: it is made, and then it returns or raises. *)
Definition call_line_api (call : event) : M unit :=
  fun w =>
    let w' := add_events [call] (with_calls (S (api_calls w)) w) in
    match line_api w (api_calls w) with
    | Accepted => (Return tt, w')
    | Failed e => (Raise e, w')
    end.

(** [l[i]] *)
Definition getindex {A} (l : list A) (i : nat) : M A :=
  match l !! i with
  | Some x => ret x
  | None => raise IndexError
  end.

(** [d[key]] *)
Definition getitem (d : dict) (key : pystr) : M pystr :=
  match dict_lookup d key with
  | Some v => ret v
  | None => raise (KeyError key)
  end.

(** [for x in l: body x] *)
Fixpoint for_each {A} (l : list A) (body : A -> M unit) : M unit :=
  match l with
  | [] => ret tt
  | x :: l' => body x ;; for_each l' body
  end.

(** ** PCCWebScraper (web_scraper_notitle.py) *)

(** [json.load(f)] on the history file opened with [encoding='utf-8']. *)
Definition json_load (c : content) : M history :=
  match c with
  | NotUTF8 => raise UnicodeDecodeError
  | NotJSON => raise JSONDecodeError
  | TooDeep => raise RecursionError
  | JSONDocument h => ret h
  end.

Definition _load_history : M history :=
  file <- read_history_file ;;
  match file with
  | Some c =>
      try_except (json_load c) is_JSONDecodeError
        (fun _ => log ERROR HistoryDecodeError ;; ret ∅)
  | None => ret ∅
  end.

(** The last line of [__init__]: [self.tender_history = self._load_history()]. *)
Definition init_scraper : M unit :=
  h <- _load_history ;; set_history h.

Definition _save_history : M unit :=
  h <- get_history ;; write_history_file h.

(** The link of a tender, from the cell that holds its id and title. *)
Definition tender_link (tender_cell : cell) : pystr :=
  match first_anchor tender_cell with
  | Some attrs =>
      match dict_lookup attrs (text "href") with
      | Some href =>
          if startswith_slash href
          then text "https://web.pcc.gov.tw" ++ href
          else text "https://web.pcc.gov.tw/" ++ href
      | None => []
      end
  | None => []
  end.

(** The dict [_parse_tender_row] returns, from the first nine cells of a
    row ([c0], the item number, is read and not used). *)
Definition tender_of_cells (now : pystr) (c0 c1 tender_cell c3 c4 c5 c6 c7 c8 : cell)
    : tender :=
  let organization := strip (cell_text c1) in
  let tender_text := strip (cell_get_text_lines tender_cell) in
  let tender_parts := split_line tender_text in
  let tender_id := strip (fst tender_parts) in
  let title :=
    match snd tender_parts with
    | Some rest => strip rest
    | None => text "Unknown Title"
    end in
  let transmission := strip (cell_text c3) in
  let tender_method := strip (cell_text c4) in
  let tender_type := strip (cell_text c5) in
  let announcement_date := strip (cell_text c6) in
  let deadline := strip (cell_text c7) in
  let budget := strip (cell_text c8) in
  let link := tender_link tender_cell in
  [ (text "id", tender_id);
    (text "title", title);
    (text "organization", organization);
    (text "transmission", transmission);
    (text "tender_method", tender_method);
    (text "tender_type", tender_type);
    (text "announcement_date", announcement_date);
    (text "deadline", deadline);
    (text "budget", budget);
    (text "link", link);
    (text "found_date", now) ].

(** [now] is [datetime.now().strftime('%Y-%m-%d %H:%M:%S')], taken as one
    value for a run. *)
Definition _parse_tender_row (now : pystr) (r : row) : M (option tender) :=
  try_except
    (let cells := r in
     if (length cells <? 9)%nat then
       log WARNING (InsufficientCells (length cells)) ;; ret None
     else
       c0 <- getindex cells 0 ;;
       c1 <- getindex cells 1 ;;
       tender_cell <- getindex cells 2 ;;
       c3 <- getindex cells 3 ;;
       c4 <- getindex cells 4 ;;
       c5 <- getindex cells 5 ;;
       c6 <- getindex cells 6 ;;
       c7 <- getindex cells 7 ;;
       c8 <- getindex cells 8 ;;
       ret (Some (tender_of_cells now c0 c1 tender_cell c3 c4 c5 c6 c7 c8)))
    is_Exception
    (fun e => log ERROR (ErrorParsingRow e) ;; ret None).

(** The test that puts a row of the results table among the data rows. *)
Definition is_data_row (r : list cell) : bool :=
  let cells := r in
  match cells with
  | [] => false
  | c0 :: _ =>
      (9 <=? length cells)%nat
      && (let item_number := strip (cell_text c0) in re_match_integer item_number)
  end.

(** The loop over the data rows: a parsed tender whose id is not in the
    history is appended to [new_tenders] and stored in the history. *)
Fixpoint classify_rows (now : pystr) (data_rows : list row)
    (new_tenders : list tender) : M (list tender) :=
  match data_rows with
  | [] => ret new_tenders
  | r :: rest =>
      parsed <- _parse_tender_row now r ;;
      new_tenders' <-
        match parsed with
        | Some t =>
            tid <- getitem t (text "id") ;;
            h <- get_history ;;
            match h !! tid with
            | None => set_history (<[tid := t]> h) ;; ret (new_tenders ++ [t])
            | Some _ => ret new_tenders
            end
        | None => ret new_tenders
        end ;;
      classify_rows now rest new_tenders'
  end.

(** [requests.get(url, headers=...)]: the query (keywords, date range,
    headers) only decides what the site answers, which is [fetch]. *)
Definition requests_get (fetch : http_outcome) : M (N * option (list row)) :=
  match fetch with
  | NetworkFailure => raise ConnectionError
  | Response status_code page => ret (status_code, page)
  end.

(** The status codes [requests] takes for an error: the client errors, 400
    to 499, and the server errors, 500 to 599. *)
Definition is_error_status (status_code : N) : bool :=
  (400 <=? status_code) && (status_code <? 600).

(** [response.raise_for_status()]: raises for an error status and for no
    other; a status such as 204 or 300 passes. *)
Definition raise_for_status (status_code : N) : M unit :=
  if is_error_status status_code
  then raise (HTTPError status_code)
  else ret tt.

Definition search_tenders (now : pystr) (debug : bool) (fetch : http_outcome)
    : M (list tender) :=
  log INFO Searching ;;
  log INFO DateRange ;;
  (if debug then log INFO SearchURL else ret tt) ;;
  try_except
    (response <- requests_get fetch ;;
     raise_for_status (fst response) ;;
     (if debug then emit WriteDebugPage ;; log INFO SavedResponse else ret tt) ;;
     match snd response with
     | None => log INFO NoResultsTable ;; ret []
     | Some tender_rows =>
         let data_rows := List.filter is_data_row tender_rows in
         match data_rows with
         | [] => log INFO NoDataRows ;; ret []
         | _ :: _ =>
             log INFO (FoundDataRows (length data_rows)) ;;
             new_tenders <- classify_rows now data_rows [] ;;
             _save_history ;;
             log INFO (FoundNewTenders (length new_tenders)) ;;
             ret new_tenders
         end
     end)
    is_RequestException
    (fun e => log ERROR (ErrorSearching e) ;; ret []).

(** ** LineNotifier (line_notifier.py) *)

(** [user_id] is [self.user_id]: [None] or a string. *)
Definition send_message (user_id : option pystr) (message : pystr) : M bool :=
  try_except
    ((match user_id with
      | Some ((_ :: _) as uid) => call_line_api (Push uid message)
      | _ => call_line_api (Broadcast message)
      end) ;;
     log INFO SentToLine ;;
     ret true)
    is_LineBotApiError
    (fun e => log ERROR (ErrorSending e) ;; ret false).

Definition format_tender_notification (t : tender) : pystr :=
  let message := text "🔔 新招標公告通知 🔔" ++ [LF; LF] in
  let message := message ++ text "📋 標案編號: " ++ dict_get t "id" (text "N/A") ++ [LF] in
  let message := message ++ text "📝 標案名稱: " ++ dict_get t "title" (text "N/A") ++ [LF] in
  let message := message ++ text "🏢 招標機關: " ++ dict_get t "organization" (text "N/A") ++ [LF] in
  let message := message ++ text "📅 公告日期: " ++ dict_get t "date" (text "N/A") ++ [LF] in
  let message :=
    match dict_lookup t (text "link") with
    | Some ((_ :: _) as link) => message ++ [LF] ++ text "🔗 詳細資訊: " ++ link ++ [LF]
    | _ => message
    end in
  let message := message ++ [LF] ++ text "此通知由自動監控系統發送。" in
  message.

Definition send_tender_notification (user_id : option pystr) (t : tender) : M bool :=
  let message := format_tender_notification t in
  send_message user_id message.

(** The lines [f"{i}. {title}\n"] of the summary, numbered from [i]. *)
Fixpoint summary_lines (i : nat) (tenders : list tender) : pystr :=
  match tenders with
  | [] => []
  | t :: rest =>
      str_of_nat i ++ text ". " ++ dict_get t "title" (text "N/A") ++ [LF]
      ++ summary_lines (S i) rest
  end.

Definition summary_message (tenders : list tender) : pystr :=
  text "🔔 發現 " ++ str_of_nat (length tenders)
  ++ text " 個新招標公告符合您的關鍵字 ('交通局' 和 '水湳')" ++ [LF; LF]
  ++ text "以下是標案清單:" ++ [LF]
  ++ summary_lines 1 tenders
  ++ [LF] ++ text "詳細資訊將在後續訊息中發送。".

Definition send_multiple_tenders_notification (user_id : option pystr)
    (tenders : list tender) : M bool :=
  match tenders with
  | [] => ret true
  | [t] => send_tender_notification user_id t
  | _ =>
      success <- send_message user_id (summary_message tenders) ;;
      for_each tenders (fun t => send_tender_notification user_id t ;; ret tt) ;;
      ret success
  end.

(** ** MonitoringSystem.run_monitoring_job (monitor_system.py)

    The job uses the scraper with its default arguments and a notifier
    built without a user id, which broadcasts. *)

Definition _update_last_run (now : pystr) : M unit := write_last_run_file now.

Definition _get_last_run : M pystr :=
  file <- read_last_run_file ;;
  match file with
  | LastRunText s => ret (strip s)
  | LastRunUnreadable e => raise e
  | LastRunMissing => ret (text "Never")
  end.

(** The first three lines are logged before the [try]: the second one reads
    data/last_run.txt, and what that read raises leaves the job. *)
Definition run_monitoring_job (now : pystr) (fetch : http_outcome) : M unit :=
  log INFO JobStarting ;;
  last_run <- _get_last_run ;;
  log INFO (JobLastRun last_run) ;;
  log INFO JobSearching ;;
  try_except
    (new_tenders <- search_tenders now false fetch ;;
     match new_tenders with
     | _ :: _ =>
         log INFO (JobFound (length new_tenders)) ;;
         notification_success <- send_multiple_tenders_notification None new_tenders ;;
         (if notification_success
          then log INFO NotificationsSent
          else log ERROR NotificationsFailed)
     | [] => log INFO NoNewTenders
     end ;;
     _update_last_run now ;;
     log INFO JobCompleted)
    is_Exception
    (fun e => log ERROR (JobError e)).

(** ** Views of the code used in the statements *)

(** The id of a tender that has one. *)
Definition tender_id (t : tender) : pystr := default [] (dict_lookup t (text "id")).

(** What [_parse_tender_row] returns on a row, and what it logs. *)
Definition parsed_row (now : pystr) (r : row) : option tender :=
  match r with
  | c0 :: c1 :: c2 :: c3 :: c4 :: c5 :: c6 :: c7 :: c8 :: _ =>
      Some (tender_of_cells now c0 c1 c2 c3 c4 c5 c6 c7 c8)
  | _ => None
  end.

Definition parse_log (r : row) : list event :=
  if (length r <? 9)%nat then [Log WARNING (InsufficientCells (length r))] else [].

(** The batch of parsed records of a list of rows, in the order of the rows. *)
Definition parsed_rows (now : pystr) (rows : list row) : list tender :=
  omap (parsed_row now) rows.

(** The loop of [search_tenders] on the parsed records alone: the new
    records and the history after the loop. *)
Fixpoint classify (h : history) (ts : list tender) : list tender * history :=
  match ts with
  | [] => ([], h)
  | t :: ts' =>
      match h !! tender_id t with
      | None =>
          let r := classify (<[tender_id t := t]> h) ts' in (t :: r.1, r.2)
      | Some _ => classify h ts'
      end
  end.

(** The new records and the history after [search_tenders] has classified
    the data rows of a results table. *)
Definition batch_result (now : pystr) (tender_rows : list row) (w : world)
    : list tender * history :=
  classify (tender_history w) (parsed_rows now (List.filter is_data_row tender_rows)).

(** The list of new records the loop has built, and the history it has
    reached, once it has gone through [rows] from the world [w]. *)
Definition new_after (now : pystr) (rows : list row) (w : world) : list tender :=
  match (classify_rows now rows [] w).1 with
  | Return new_tenders => new_tenders
  | Raise _ => []
  end.

Definition seen_after (now : pystr) (rows : list row) (w : world) : history :=
  tender_history (classify_rows now rows [] w).2.

(** The records of [ts] reported under the id [k]. *)
Definition reports_of (k : pystr) (ts : list tender) : list tender :=
  List.filter (fun t => bool_decide (tender_id t = k)) ts.

(** A row qualifies as a data row: it has at least 9 cells and the trimmed
    text of its first cell matches the integer pattern. *)
Definition row_qualifies (r : row) : bool :=
  (9 <=? length r)%nat
  && match head r with
     | Some c0 => re_match_integer (strip (cell_text c0))
     | None => false
     end.

(** What [search_tenders] logs before the request, and what it does with the
    body in debug mode. *)
Definition prologue (debug : bool) : list event :=
  [Log INFO Searching; Log INFO DateRange]
  ++ (if debug then [Log INFO SearchURL] else []).

Definition saved (debug : bool) : list event :=
  if debug then [WriteDebugPage; Log INFO SavedResponse] else [].

(** The data rows of a page. *)
Definition data_rows_of (page : option (list row)) : list row :=
  match page with
  | Some tender_rows => List.filter is_data_row tender_rows
  | None => []
  end.

(** The fetch fails as the specification words it: a network failure or a
    status outside 200..299. *)
Definition fails_non_2xx (fetch : http_outcome) : bool :=
  match fetch with
  | NetworkFailure => true
  | Response status _ => negb ((200 <=? status) && (status <? 300))
  end.

(** The fetch fails as the code sees it: [requests.get] or
    [raise_for_status] raises. *)
Definition fetch_raises (fetch : http_outcome) : bool :=
  match fetch with
  | NetworkFailure => true
  | Response status _ => is_error_status status
  end.

(** The data rows [search_tenders] classifies for an HTTP exchange: none
    when the fetch fails. *)
Definition classified_rows (fetch : http_outcome) : list row :=
  match fetch with
  | NetworkFailure => []
  | Response status page => if is_error_status status then [] else data_rows_of page
  end.

(** The histories written to the history file by a list of events, and the
    messages handed to the LINE API. *)
Definition writes (evs : list event) : list history :=
  omap (fun e => match e with WriteHistory h => Some h | _ => None end) evs.

Definition sent (evs : list event) : list pystr :=
  omap (fun e => match e with
                 | Push _ m | Broadcast m => Some m
                 | _ => None
                 end) evs.

(** The call [send_message] makes to the LINE API. *)
Definition api_call (user_id : option pystr) (message : pystr) : event :=
  match user_id with
  | Some ((_ :: _) as uid) => Push uid message
  | _ => Broadcast message
  end.

(** The answer is one the channel gives: the call is accepted, or the API
    reports an error, which the client raises as [LineBotApiError]. *)
Definition channel_level (a : api_outcome) : Prop :=
  match a with
  | Accepted => True
  | Failed e => is_LineBotApiError e = true
  end.

(** [send_message] reports this answer as a success. *)
Definition accepted (a : api_outcome) : bool :=
  match a with
  | Accepted => true
  | Failed _ => false
  end.

(** The messages a batch notification hands to the LINE API, in order. *)
Definition batch_messages (tenders : list tender) : list pystr :=
  match tenders with
  | [] => []
  | [t] => [format_tender_notification t]
  | _ => summary_message tenders :: map format_tender_notification tenders
  end.

(** The body of the loop that sends the detail messages. *)
Definition send_detail (user_id : option pystr) (t : tender) : M unit :=
  send_tender_notification user_id t ;; ret tt.

(** [pat in s]: the string [pat] occurs in [s]. *)
Fixpoint starts_with (pat s : pystr) : bool :=
  match pat, s with
  | [], _ => true
  | p :: pat', c :: s' => (p =? c) && starts_with pat' s'
  | _ :: _, [] => false
  end.

Fixpoint occurs (pat s : pystr) : bool :=
  starts_with pat s
  || match s with
     | [] => false
     | _ :: s' => occurs pat s'
     end.

(** The keys [format_tender_notification] reads. *)
Definition rendered_keys : list string :=
  ["id"; "title"; "organization"; "date"; "link"]%string.

(** The fields rendered with a placeholder, each with the label of its line. *)
Definition placeholder_fields : list (string * string) :=
  [ ("id", "📋 標案編號: "); ("title", "📝 標案名稱: ");
    ("organization", "🏢 招標機關: "); ("date", "📅 公告日期: ") ]%string.

(** A computation leaves the history in memory as it found it. *)
Definition keeps_history {A} (m : M A) : Prop :=
  ∀ w, tender_history (m w).2 = tender_history w.

(** What [_get_last_run] returns when it returns, and the lines the job logs
    before its [try] in that case. *)
Definition last_run_text (f : last_run) : pystr :=
  match f with
  | LastRunText s => strip s
  | _ => text "Never"
  end.

Definition job_prologue (w : world) : list event :=
  [Log INFO JobStarting; Log INFO (JobLastRun (last_run_text (last_run_file w)));
   Log INFO JobSearching].

(** What [run_monitoring_job] of monitor_system.py does with the records
    [search_tenders] returned. *)
Definition job_notify (now : pystr) (new_tenders : list tender) : M unit :=
  match new_tenders with
  | _ :: _ =>
      log INFO (JobFound (length new_tenders)) ;;
      notification_success <- send_multiple_tenders_notification None new_tenders ;;
      (if notification_success
       then log INFO NotificationsSent
       else log ERROR NotificationsFailed)
  | [] => log INFO NoNewTenders
  end ;;
  _update_last_run now ;;
  log INFO JobCompleted.

(** ** Sample data *)

Definition now0 : pystr := text "2025-04-02 05:49:00".

Definition td (s : string) : cell := Cell [text s] None.

Definition td_link (tender_no title href : string) : cell :=
  Cell [text tender_no; text title] (Some [(text "href", text href)]).

Definition row_A001 : row :=
  [ td "1"; td "交通局"; td_link "A001" "水湳智慧城市建設計畫" "/tps/tender/A001";
    td "01"; td "公開招標"; td "工程類"; td "113/04/02"; td "113/04/30"; td "1,000,000" ].

Definition row_A002 : row :=
  [ td " 2 "; td "交通局"; td_link "A002" "水湳經貿園區交通規劃" "https://web.pcc.gov.tw/tps/A002";
    td "01"; td "公開招標"; td "勞務類"; td "113/04/02"; td "113/05/15"; td "2,500,000" ].

Definition row_header : row :=
  [ td "項次"; td "機關名稱"; td "標案案號"; td "傳輸次數"; td "招標方式";
    td "採購性質"; td "公告日期"; td "截止投標"; td "預算金額" ].

Definition row_short : row := [ td "3"; td "交通局" ].

Definition tender_A001 : tender := tender_of_cells now0
  (td "1") (td "交通局") (td_link "A001" "水湳智慧城市建設計畫" "/tps/tender/A001")
  (td "01") (td "公開招標") (td "工程類") (td "113/04/02") (td "113/04/30") (td "1,000,000").

(** A tender with the four fields of the template and none of the optional
    ones. *)
Definition tender_plain : tender :=
  [ (text "id", text "TEST-001");
    (text "title", text "水湳智慧城市建設計畫");
    (text "organization", text "交通局");
    (text "date", text "113/04/02") ].

(** The test tender of line_notifier.py. *)
Definition tender_test : tender :=
  [ (text "id", text "TEST-001");
    (text "title", text "水湳智慧城市建設計畫");
    (text "organization", text "交通局");
    (text "date", text "113/04/02");
    (text "link", text "https://web.pcc.gov.tw/pis/test_link");
    (text "found_date", text "2025-04-02 05:49:00") ].

(** A world with an empty history, no history file and a LINE API that
    accepts every call. *)
Definition world0 : world :=
  {| tender_history := ∅; history_file := None;
     line_api := fun _ => Accepted; api_calls := 0; last_run_file := LastRunMissing; trace := [] |}.

(** The same world with a LINE API that rejects its second call, and with one
    that rejects every call. *)
Definition world_flaky : world :=
  {| tender_history := ∅; history_file := None;
     line_api := fun n => match n with
                          | 1%nat => Failed (LineBotApiError 429)
                          | _ => Accepted
                          end;
     api_calls := 0; last_run_file := LastRunMissing; trace := [] |}.

Definition world_rejecting : world :=
  {| tender_history := ∅; history_file := None;
     line_api := fun _ => Failed (LineBotApiError 401);
     api_calls := 0; last_run_file := LastRunMissing; trace := [] |}.

(** ** More views of the code *)

(** All the characters of a string are whitespace. *)
Definition all_space (s : pystr) : bool := forallb isspace s.

(** ** More sample data *)

(** A row whose third cell holds nothing but whitespace, and a row whose third
    cell holds a tender number and no title. *)
Definition row_blank : row :=
  [ td "4"; td "交通局"; Cell [text "  "; text " "] None;
    td "01"; td "公開招標"; td "工程類"; td "113/04/02"; td "113/04/30"; td "0" ].

Definition row_untitled : row :=
  [ td "5"; td "交通局"; Cell [text " A005 "] None;
    td "01"; td "公開招標"; td "工程類"; td "113/04/02"; td "113/04/30"; td "0" ].

(** The history file after [search_tenders]: rewritten with the history
    reached when there was a data row to classify, left alone otherwise. *)
Definition file_after (now : pystr) (fetch : http_outcome) (w : world) : option content :=
  match classified_rows fetch with
  | [] => history_file w
  | _ :: _ => Some (JSONDocument (seen_after now (classified_rows fetch) w))
  end.

(** ** scheduler.py

    [run_monitoring_job] of scheduler.py builds a new scraper at every run,
    so the history comes from the history file each time. The lines it logs
    through its own logger are returned beside its result. *)

Inductive scheduler_line :=
  | SchedulerStarting
  | SchedulerFound (n : nat)
  | SchedulerNewTender (id title : pystr)
  | SchedulerNoNewTenders
  | SchedulerCompleted
  | SchedulerError (e : exn).

(** The loop [for tender in new_tenders: logger.info(f"... {tender['id']} -
    {tender['title']}")]: the lines logged, and the [KeyError] that ends the
    loop if a key is missing. *)
Fixpoint scheduler_tender_lines (new_tenders : list tender)
    : list scheduler_line * option exn :=
  match new_tenders with
  | [] => ([], None)
  | t :: rest =>
      match dict_lookup t (text "id") with
      | None => ([], Some (KeyError (text "id")))
      | Some id =>
          match dict_lookup t (text "title") with
          | None => ([], Some (KeyError (text "title")))
          | Some title =>
              let '(lines, e) := scheduler_tender_lines rest in
              (SchedulerNewTender id title :: lines, e)
          end
      end
  end.

Definition scheduler_run_monitoring_job (now : pystr) (fetch : http_outcome)
    (w : world) : list tender * list scheduler_line * world :=
  match (init_scraper ;; search_tenders now false fetch) w with
  | (Return new_tenders, w') =>
      match new_tenders with
      | _ :: _ =>
          match scheduler_tender_lines new_tenders with
          | (lines, None) =>
              (new_tenders,
               [SchedulerStarting; SchedulerFound (length new_tenders)] ++ lines
               ++ [SchedulerCompleted], w')
          | (lines, Some e) =>
              ([],
               [SchedulerStarting; SchedulerFound (length new_tenders)] ++ lines
               ++ [SchedulerError e], w')
          end
      | [] =>
          (new_tenders, [SchedulerStarting; SchedulerNoNewTenders; SchedulerCompleted], w')
      end
  | (Raise e, w') => ([], [SchedulerStarting; SchedulerError e], w')
  end.

(** The history a new scraper starts from, for a given history file; [None]
    when its constructor raises. *)
Definition stored (f : option content) : option history :=
  match f with
  | None => Some ∅
  | Some NotJSON => Some ∅
  | Some (JSONDocument h) => Some h
  | Some NotUTF8 => None
  | Some TooDeep => None
  end.

(** The history in memory is the one a new scraper would start from. *)
Definition in_sync (w : world) : Prop :=
  stored (history_file w) = Some (tender_history w).

(** A computation leaves the history file as it found it. *)
Definition keeps_file {A} (m : M A) : Prop :=
  ∀ w, history_file (m w).2 = history_file w.

(** A world whose history file is not JSON, and one whose history file is
    not UTF-8. *)
Definition world_not_json : world := with_file (Some NotJSON) world0.
Definition world_not_utf8 : world := with_file (Some NotUTF8) world0.


(** The title of a tender that has one. *)
Definition tender_title (t : tender) : pystr := default [] (dict_lookup t (text "title")).

(** The lines the scheduled job logs for a list of new records, between its
    first and its last line. *)
Definition scheduler_report (new_tenders : list tender) : list scheduler_line :=
  match new_tenders with
  | [] => [SchedulerNoNewTenders]
  | _ :: _ =>
      SchedulerFound (length new_tenders)
      :: map (fun t => SchedulerNewTender (tender_id t) (tender_title t)) new_tenders
  end.

(** ** Views of the notifier's calls *)

(** The calls to the LINE API among a list of events, in order. *)
Definition calls (evs : list event) : list event :=
  List.filter (fun e => match e with Push _ _ | Broadcast _ => true | _ => false end) evs.

(** The event writes no file: it is a log line or a call to the LINE API. *)
Definition writes_no_file (e : event) : bool :=
  match e with
  | Log _ _ | Push _ _ | Broadcast _ => true
  | WriteHistory _ | WriteDebugPage | WriteLastRun _ => false
  end.

(** The exception an answer of the LINE API raises through [send_message],
    whose handler catches [LineBotApiError] alone. *)
Definition escaping_error (a : api_outcome) : option exn :=
  match a with
  | Accepted => None
  | Failed e => if is_LineBotApiError e then None else Some e
  end.

(** Among the answers to the calls [from], [from + 1], ..., [from + count - 1],
    the first that raises through [send_message]: its offset and the
    exception. *)
Fixpoint first_escape (answers : nat -> api_outcome) (from count : nat)
    : option (nat * exn) :=
  match count with
  | O => None
  | S count' =>
      match escaping_error (answers from) with
      | Some e => Some (O, e)
      | None =>
          match first_escape answers (S from) count' with
          | Some (k, e) => Some (S k, e)
          | None => None
          end
      end
  end.

(** The messages handed to the LINE API when the calls for [messages] are
    made in order until one raises. *)
Definition handed_over (messages : list pystr) (escape : option (nat * exn))
    : list pystr :=
  match escape with
  | None => messages
  | Some (k, _) => take (S k) messages
  end.

(** A LINE API that accepts its first call and is unreachable at its
    second. *)
Definition world_unreachable : world :=
  {| tender_history := ∅; history_file := None;
     line_api := fun n => match n with
                          | 1%nat => Failed ConnectionError
                          | _ => Accepted
                          end;
     api_calls := 0; last_run_file := LastRunMissing; trace := [] |}.

(** A LINE API that cannot be reached at all: the HTTP client of the API
    raises at every call. *)
Definition world_offline : world :=
  {| tender_history := ∅; history_file := None;
     line_api := fun _ => Failed ConnectionError;
     api_calls := 0; last_run_file := LastRunMissing; trace := [] |}.

(** The messages of the job for a response, and the first answer of the LINE
    API that raises through the notifier among the answers to them. *)
Definition job_messages (now : pystr) (fetch : http_outcome) (w : world) : list pystr :=
  batch_messages (new_after now (classified_rows fetch) w).

Definition job_escape (now : pystr) (fetch : http_outcome) (w : world)
    : option (nat * exn) :=
  first_escape (line_api w) (api_calls w) (length (job_messages now fetch w)).

(** ** Views of the messages *)

(** The lines of a notification that show the link, when there is one. *)
Definition link_lines (link : pystr) : pystr :=
  match link with
  | [] => []
  | _ :: _ => [LF] ++ text "🔗 詳細資訊: " ++ link ++ [LF]
  end.

(** ** The dates of the query (web_scraper_notitle.py)

    [search_tenders] computes the two dates of its query before the request.
    [datetime] is not part of the program: a [date] stands for the value of
    [today - timedelta(days=months_ago * 30)], and [int] for the builtin. *)

Record date := Date { year : Z; month : Z; day : Z }.

(** [str(z)] of an integer. *)
Definition str_of_Z (z : Z) : pystr :=
  bytes_of_string (NilZero.string_of_int (Z.to_int z)).

(** [f"{n:02d}"]: at least two characters, padded with a zero. *)
Definition format_02d (n : Z) : pystr :=
  if ((0 <=? n) && (n <? 10))%Z then 0x30 :: str_of_Z n else str_of_Z n.

Definition _get_formatted_date (target_date : date) : pystr :=
  let roc_year := (year target_date - 1911)%Z in
  str_of_Z roc_year ++ [SLASH] ++ format_02d (month target_date)
  ++ [SLASH] ++ format_02d (day target_date).

(** [s.split(sep)] for a separator of one character. *)
Fixpoint split_on (sep : N) (s : pystr) : list pystr :=
  match s with
  | [] => [[]]
  | c :: s' =>
      if c =? sep then [] :: split_on sep s'
      else match split_on sep s' with
           | p :: ps => (c :: p) :: ps
           | [] => [[c]]
           end
  end.

(** What the computation of one date of the URL gives: the date, or the
    exception that leaves [search_tenders]. *)
Inductive date_outcome :=
  | DateURL (s : pystr)
  | DateValueError
  | DateIndexError.

Section query_dates.

(** [int(s)]: the integer, or [None] when it raises [ValueError]. *)
Variable int_of_str : pystr -> option Z.

(** [f"{int(parts[0]) + 1911}/{parts[1]}/{parts[2]}"] *)
Definition date_url (date_parts : list pystr) : date_outcome :=
  match date_parts !! 0%nat with
  | None => DateIndexError
  | Some p0 =>
      match int_of_str p0 with
      | None => DateValueError
      | Some roc_year =>
          match date_parts !! 1%nat with
          | None => DateIndexError
          | Some p1 =>
              match date_parts !! 2%nat with
              | None => DateIndexError
              | Some p2 =>
                  DateURL (str_of_Z (roc_year + 1911) ++ [SLASH] ++ p1 ++ [SLASH] ++ p2)
              end
          end
      end
  end.

(** The date of the URL for a target date. *)
Definition query_date (target_date : date) : date_outcome :=
  let formatted := _get_formatted_date target_date in
  let date_parts := split_on SLASH formatted in
  date_url date_parts.

End query_dates.

(** A reader of decimal numerals, which inverts [str] on the integers as
    [int] does. *)
Definition read_decimal (s : pystr) : option Z :=
  Z.of_int <$> NilZero.int_of_string (string_of_list_ascii (map ascii_of_N s)).

(** ** The earlier scraper (web_scraper_old.py)

    A row of the earlier results page is a [div.tenderCase] element, modelled
    by what the selectors of [_parse_tender_row] return on it: the text of its
    first [div.tenderCase_id], [div.tenderCase_title], [div.tenderCase_org]
    and [div.tenderCase_date] element and the attributes of its first [a]
    element, each if there is one. *)

Record case_row := CaseRow {
  tenderCase_id : option pystr;
  tenderCase_title : option pystr;
  tenderCase_org : option pystr;
  tenderCase_date : option pystr;
  case_anchor : option dict
}.

Module web_scraper_old.

Definition base_url : pystr := text "https://web.pcc.gov.tw/pis/".

Definition _parse_tender_row (now : pystr) (r : case_row) : M (option tender) :=
  try_except
    (match tenderCase_id r with
     | None => ret None
     | Some id_text =>
         let tender_id := strip id_text in
         let title :=
           match tenderCase_title r with
           | Some title_text => strip title_text
           | None => text "Unknown Title"
           end in
         let organization :=
           match tenderCase_org r with
           | Some org_text => strip org_text
           | None => text "Unknown Organization"
           end in
         let date_str :=
           match tenderCase_date r with
           | Some date_text => strip date_text
           | None => []
           end in
         let link :=
           match case_anchor r with
           | Some attrs =>
               match dict_lookup attrs (text "href") with
               | Some href => base_url ++ href
               | None => []
               end
           | None => []
           end in
         ret (Some [ (text "id", tender_id);
                     (text "title", title);
                     (text "organization", organization);
                     (text "date", date_str);
                     (text "link", link);
                     (text "found_date", now) ])
     end)
    is_Exception
    (fun e => log ERROR (ErrorParsingRow e) ;; ret None).

End web_scraper_old.

(** A row of the earlier page with its id element alone. *)
Definition case_row_bare : case_row :=
  {| tenderCase_id := Some (text "A002");
     tenderCase_title := None; tenderCase_org := None; tenderCase_date := None;
     case_anchor := None |}.

(** A row whose item number is written with fullwidth digits. *)
Definition row_fullwidth : row :=
  [ td " １２ "; td "交通局"; td_link "A012" "水湳轉運中心" "/tps/tender/A012";
    td "01"; td "公開招標"; td "工程類"; td "113/04/02"; td "113/04/30"; td "500,000" ].
(** * Proofs *)

(** ** The monad and the world *)

Lemma add_events_nil (w : world) : add_events [] w = w.
Proof. destruct w; unfold add_events; simpl. by rewrite app_nil_r. Qed.

Lemma add_events_add_events (evs1 evs2 : list event) (w : world) :
  add_events evs2 (add_events evs1 w) = add_events (evs1 ++ evs2) w.
Proof. unfold add_events; simpl. by rewrite app_assoc. Qed.

Lemma with_history_add_events (h : history) (evs : list event) (w : world) :
  with_history h (add_events evs w) = add_events evs (with_history h w).
Proof. reflexivity. Qed.

Lemma with_file_add_events (f : option content) (evs : list event) (w : world) :
  with_file f (add_events evs w) = add_events evs (with_file f w).
Proof. reflexivity. Qed.

Lemma with_calls_add_events (n : nat) (evs : list event) (w : world) :
  with_calls n (add_events evs w) = add_events evs (with_calls n w).
Proof. reflexivity. Qed.

Lemma with_history_same (w : world) : with_history (tender_history w) w = w.
Proof. by destruct w. Qed.

Lemma with_file_same (w : world) : with_file (history_file w) w = w.
Proof. by destruct w. Qed.

Lemma with_history_with_history (h1 h2 : history) (w : world) :
  with_history h2 (with_history h1 w) = with_history h2 w.
Proof. reflexivity. Qed.

Lemma with_calls_with_calls (n1 n2 : nat) (w : world) :
  with_calls n2 (with_calls n1 w) = with_calls n2 w.
Proof. reflexivity. Qed.

Lemma tender_history_add_events (evs : list event) (w : world) :
  tender_history (add_events evs w) = tender_history w.
Proof. reflexivity. Qed.

Lemma tender_history_with_history (h : history) (w : world) :
  tender_history (with_history h w) = h.
Proof. reflexivity. Qed.

Lemma tender_history_with_file (f : option content) (w : world) :
  tender_history (with_file f w) = tender_history w.
Proof. reflexivity. Qed.

Lemma tender_history_with_calls (n : nat) (w : world) :
  tender_history (with_calls n w) = tender_history w.
Proof. reflexivity. Qed.

Lemma history_file_add_events (evs : list event) (w : world) :
  history_file (add_events evs w) = history_file w.
Proof. reflexivity. Qed.

Lemma history_file_with_history (h : history) (w : world) :
  history_file (with_history h w) = history_file w.
Proof. reflexivity. Qed.

Lemma history_file_with_file (f : option content) (w : world) :
  history_file (with_file f w) = f.
Proof. reflexivity. Qed.

Lemma history_file_with_calls (n : nat) (w : world) :
  history_file (with_calls n w) = history_file w.
Proof. reflexivity. Qed.

Lemma api_calls_add_events (evs : list event) (w : world) :
  api_calls (add_events evs w) = api_calls w.
Proof. reflexivity. Qed.

Lemma api_calls_with_calls (n : nat) (w : world) :
  api_calls (with_calls n w) = n.
Proof. reflexivity. Qed.

Lemma line_api_add_events (evs : list event) (w : world) :
  line_api (add_events evs w) = line_api w.
Proof. reflexivity. Qed.

Lemma line_api_with_calls (n : nat) (w : world) :
  line_api (with_calls n w) = line_api w.
Proof. reflexivity. Qed.

Lemma trace_add_events (evs : list event) (w : world) :
  trace (add_events evs w) = trace w ++ evs.
Proof. reflexivity. Qed.

Lemma trace_with_history (h : history) (w : world) :
  trace (with_history h w) = trace w.
Proof. reflexivity. Qed.

Lemma trace_with_file (f : option content) (w : world) :
  trace (with_file f w) = trace w.
Proof. reflexivity. Qed.

Lemma trace_with_calls (n : nat) (w : world) :
  trace (with_calls n w) = trace w.
Proof. reflexivity. Qed.

Lemma with_last_run_add_events (f : last_run) (evs : list event) (w : world) :
  with_last_run f (add_events evs w) = add_events evs (with_last_run f w).
Proof. reflexivity. Qed.

Lemma with_last_run_with_calls (f : last_run) (n : nat) (w : world) :
  with_last_run f (with_calls n w) = with_calls n (with_last_run f w).
Proof. reflexivity. Qed.

Lemma tender_history_with_last_run (f : last_run) (w : world) :
  tender_history (with_last_run f w) = tender_history w.
Proof. reflexivity. Qed.

Lemma history_file_with_last_run (f : last_run) (w : world) :
  history_file (with_last_run f w) = history_file w.
Proof. reflexivity. Qed.

Lemma api_calls_with_last_run (f : last_run) (w : world) :
  api_calls (with_last_run f w) = api_calls w.
Proof. reflexivity. Qed.

Lemma line_api_with_last_run (f : last_run) (w : world) :
  line_api (with_last_run f w) = line_api w.
Proof. reflexivity. Qed.

Lemma trace_with_last_run (f : last_run) (w : world) :
  trace (with_last_run f w) = trace w.
Proof. reflexivity. Qed.

Lemma last_run_file_add_events (evs : list event) (w : world) :
  last_run_file (add_events evs w) = last_run_file w.
Proof. reflexivity. Qed.

Lemma last_run_file_with_history (h : history) (w : world) :
  last_run_file (with_history h w) = last_run_file w.
Proof. reflexivity. Qed.

Lemma last_run_file_with_file (f : option content) (w : world) :
  last_run_file (with_file f w) = last_run_file w.
Proof. reflexivity. Qed.

Lemma last_run_file_with_calls (n : nat) (w : world) :
  last_run_file (with_calls n w) = last_run_file w.
Proof. reflexivity. Qed.

Lemma last_run_file_with_last_run (f : last_run) (w : world) :
  last_run_file (with_last_run f w) = f.
Proof. reflexivity. Qed.

Create Rewrite HintDb world.
#[local] Hint Rewrite add_events_nil add_events_add_events
  with_history_add_events with_file_add_events with_calls_add_events
  with_history_with_history with_calls_with_calls
  tender_history_add_events tender_history_with_history
  tender_history_with_file tender_history_with_calls
  history_file_add_events history_file_with_history history_file_with_file
  history_file_with_calls api_calls_add_events api_calls_with_calls
  line_api_add_events line_api_with_calls
  trace_add_events trace_with_history trace_with_file trace_with_calls
  with_last_run_add_events with_last_run_with_calls
  tender_history_with_last_run history_file_with_last_run
  api_calls_with_last_run line_api_with_last_run trace_with_last_run
  last_run_file_add_events last_run_file_with_history last_run_file_with_file
  last_run_file_with_calls last_run_file_with_last_run : world.

(** Evaluation of a computation: the combinators of the monad are unfolded,
    the worlds are kept as updates of the initial one. *)
Ltac run :=
  cbv beta iota zeta delta
    [bind try_except ret raise log emit get_history set_history
     read_history_file write_history_file read_last_run_file
     write_last_run_file _update_last_run requests_get raise_for_status
     _save_history is_RequestException is_LineBotApiError is_JSONDecodeError
     is_Exception].

Ltac world_eq :=
  autorewrite with world; unfold prologue, saved;
  rewrite <- ?app_assoc; cbn [app]; try reflexivity.

(** ** Parsing a row *)

Lemma dict_lookup_id (v1 v2 v3 v4 v5 v6 v7 v8 v9 v10 v11 : pystr) :
  dict_lookup
    [ (text "id", v1); (text "title", v2); (text "organization", v3);
      (text "transmission", v4); (text "tender_method", v5);
      (text "tender_type", v6); (text "announcement_date", v7);
      (text "deadline", v8); (text "budget", v9); (text "link", v10);
      (text "found_date", v11) ] (text "id") = Some v1.
Proof. vm_compute. reflexivity. Qed.

Lemma dict_lookup_link (v1 v2 v3 v4 v5 v6 v7 v8 v9 v10 v11 : pystr) :
  dict_lookup
    [ (text "id", v1); (text "title", v2); (text "organization", v3);
      (text "transmission", v4); (text "tender_method", v5);
      (text "tender_type", v6); (text "announcement_date", v7);
      (text "deadline", v8); (text "budget", v9); (text "link", v10);
      (text "found_date", v11) ] (text "link") = Some v10.
Proof. vm_compute. reflexivity. Qed.

Lemma tender_of_cells_id (now : pystr) (c0 c1 c2 c3 c4 c5 c6 c7 c8 : cell) :
  dict_lookup (tender_of_cells now c0 c1 c2 c3 c4 c5 c6 c7 c8) (text "id")
  = Some (strip (split_line (strip (cell_get_text_lines c2))).1).
Proof. unfold tender_of_cells. apply dict_lookup_id. Qed.

Lemma tender_of_cells_link (now : pystr) (c0 c1 c2 c3 c4 c5 c6 c7 c8 : cell) :
  dict_lookup (tender_of_cells now c0 c1 c2 c3 c4 c5 c6 c7 c8) (text "link")
  = Some (tender_link c2).
Proof. unfold tender_of_cells. apply dict_lookup_link. Qed.

Lemma parsed_row_length (now : pystr) (r : row) :
  parsed_row now r = None ↔ (length r < 9)%nat.
Proof.
  do 9 (destruct r as [|? r]; [simpl; split; [lia | done] |]).
  simpl. split; [done | lia].
Qed.

Lemma parsed_row_has_id (now : pystr) (r : row) (t : tender) :
  parsed_row now r = Some t → dict_lookup t (text "id") = Some (tender_id t).
Proof.
  do 9 (destruct r as [|? r]; [done |]).
  intros [= <-]. unfold tender_id. by rewrite tender_of_cells_id.
Qed.

Lemma parse_tender_row_spec (now : pystr) (r : row) (w : world) :
  _parse_tender_row now r w = (Return (parsed_row now r), add_events (parse_log r) w).
Proof.
  do 9 (destruct r as [|? r]; [reflexivity |]).
  unfold _parse_tender_row, try_except, parse_log. simpl.
  by rewrite add_events_nil.
Qed.

(** ** The classification loop *)

Lemma classify_app (h : history) (ts1 ts2 : list tender) :
  classify h (ts1 ++ ts2)
  = ((classify h ts1).1 ++ (classify (classify h ts1).2 ts2).1,
     (classify (classify h ts1).2 ts2).2).
Proof.
  revert h. induction ts1 as [|t ts1 IH]; intros h; simpl.
  - by destruct (classify h ts2).
  - destruct (h !! tender_id t); simpl; by rewrite IH.
Qed.

Lemma classify_keeps (h : history) (ts : list tender) (k : pystr) (t : tender) :
  h !! k = Some t → (classify h ts).2 !! k = Some t.
Proof.
  revert h. induction ts as [|t' ts IH]; intros h Hk; simpl; [done |].
  destruct (h !! tender_id t') eqn:Hid; simpl; [by apply IH |].
  apply IH. rewrite lookup_insert_ne; [done | congruence].
Qed.

Lemma classify_dom (h : history) (ts : list tender) :
  dom (classify h ts).2 = dom h ∪ list_to_set (tender_id <$> ts).
Proof.
  revert h. induction ts as [|t ts IH]; intros h; simpl.
  - set_solver.
  - destruct (h !! tender_id t) eqn:Hid; simpl; rewrite IH.
    + apply (elem_of_dom_2 h) in Hid. set_solver.
    + rewrite dom_insert_L. set_solver.
Qed.

Lemma classify_seen (h : history) (ts : list tender) :
  Forall (fun t => tender_id t ∈ dom h) ts → classify h ts = ([], h).
Proof.
  induction 1 as [|t ts Ht _ IH]; simpl; [done |].
  apply elem_of_dom in Ht as [? ->]. done.
Qed.

Lemma reports_of_seen (h : history) (ts : list tender) (k : pystr) :
  k ∈ dom h → reports_of k (classify h ts).1 = [].
Proof.
  revert h. induction ts as [|t ts IH]; intros h Hk; simpl; [done |].
  destruct (h !! tender_id t) eqn:Hid; simpl; [by apply IH |].
  rewrite bool_decide_eq_false_2.
  - apply IH. rewrite dom_insert_L. set_solver.
  - intros <-. apply elem_of_dom in Hk as [? Hk]. congruence.
Qed.

Lemma reports_of_count (h : history) (ts : list tender) (k : pystr) :
  length (reports_of k (classify h ts).1)
  = if bool_decide ((k ∉ dom h) ∧ k ∈ (tender_id <$> ts)) then 1%nat else 0%nat.
Proof.
  revert h. induction ts as [|t ts IH]; intros h; simpl.
  - rewrite bool_decide_eq_false_2; [done |]. set_solver.
  - destruct (h !! tender_id t) eqn:Hid; simpl.
    + rewrite IH. apply (elem_of_dom_2 h) in Hid.
      repeat case_bool_decide; try done; exfalso; set_solver.
    + apply (not_elem_of_dom_2 h) in Hid.
      destruct (decide (tender_id t = k)) as [<- | Hne].
      * rewrite bool_decide_eq_true_2 by done. simpl.
        rewrite reports_of_seen by (rewrite dom_insert_L; set_solver).
        rewrite bool_decide_eq_true_2; [done |]. set_solver.
      * rewrite bool_decide_eq_false_2 by done. rewrite IH, dom_insert_L.
        repeat case_bool_decide; try done; exfalso; set_solver.
Qed.

Lemma getitem_id (t : tender) (w : world) :
  dict_lookup t (text "id") = Some (tender_id t) →
  getitem t (text "id") w = (Return (tender_id t), w).
Proof. intros Ht. unfold getitem. by rewrite Ht. Qed.

Lemma parsed_rows_cons (now : pystr) (r : row) (rows : list row) :
  parsed_rows now (r :: rows)
  = match parsed_row now r with
    | Some t => t :: parsed_rows now rows
    | None => parsed_rows now rows
    end.
Proof. reflexivity. Qed.

Lemma parsed_rows_app (now : pystr) (rows1 rows2 : list row) :
  parsed_rows now (rows1 ++ rows2) = parsed_rows now rows1 ++ parsed_rows now rows2.
Proof. apply omap_app. Qed.

(** The loop never raises; its result and its effect on the history are
    those of [classify] on the parsed records. *)
Lemma classify_rows_spec (now : pystr) (rows : list row) (new : list tender) (w : world) :
  classify_rows now rows new w
  = (Return (new ++ (classify (tender_history w) (parsed_rows now rows)).1),
     with_history (classify (tender_history w) (parsed_rows now rows)).2
       (add_events (flat_map parse_log rows) w)).
Proof.
  revert new w. induction rows as [|r rows IH]; intros new w.
  - simpl. unfold ret. by rewrite app_nil_r, add_events_nil, with_history_same.
  - cbn [classify_rows]. unfold bind at 1. rewrite parse_tender_row_spec.
    rewrite parsed_rows_cons. cbn [flat_map].
    destruct (parsed_row now r) as [t|] eqn:Hp.
    + unfold bind at 1. unfold bind at 1.
      rewrite (getitem_id t) by eauto using parsed_row_has_id.
      unfold bind at 1, get_history. cbn [tender_history add_events classify].
      destruct (tender_history w !! tender_id t) eqn:Hid.
      * unfold ret at 1. rewrite IH. cbn [tender_history add_events].
        by rewrite add_events_add_events.
      * unfold bind at 1, set_history, ret at 1. rewrite IH.
        cbn [tender_history with_history fst snd].
        rewrite <- app_assoc. cbn [app].
        by rewrite <- with_history_add_events, with_history_with_history,
          add_events_add_events.
    + unfold bind at 1, ret at 1. rewrite IH. cbn [tender_history add_events].
      by rewrite add_events_add_events.
Qed.

Lemma new_after_classify (now : pystr) (rows : list row) (w : world) :
  new_after now rows w = (classify (tender_history w) (parsed_rows now rows)).1.
Proof. unfold new_after. by rewrite classify_rows_spec. Qed.

Lemma seen_after_classify (now : pystr) (rows : list row) (w : world) :
  seen_after now rows w = (classify (tender_history w) (parsed_rows now rows)).2.
Proof. unfold seen_after. by rewrite classify_rows_spec. Qed.

(** C1. The loop of [search_tenders] goes through the rows in order and
    returns. When it reaches the row [r], parsed as the record [t], after the
    rows [pre], it reports [t] as new if and only if the id of [t] is absent
    from the history reached after [pre], and it stores [t] under that id at
    once; a report is never withdrawn by the rows that follow. In the whole
    batch an id is reported exactly once if it was absent from the history
    before the run and occurs in the batch, and never otherwise; and an entry
    the history had before the run is still there, unchanged, after it. *)
Theorem classification_postcondition (now : pystr) (w : world)
    (pre : list row) (r : row) (post : list row) (t : tender) :
  parsed_row now r = Some t →
  let rows := pre ++ r :: post in
  let reported := bool_decide (tender_id t ∉ dom (seen_after now pre w)) in
  (classify_rows now rows [] w).1 = Return (new_after now rows w)
  ∧ new_after now (pre ++ [r]) w
    = (if reported then new_after now pre w ++ [t] else new_after now pre w)
  ∧ seen_after now (pre ++ [r]) w
    = (if reported then <[tender_id t := t]> (seen_after now pre w)
       else seen_after now pre w)
  ∧ new_after now (pre ++ [r]) w `prefix_of` new_after now rows w
  ∧ (∀ k : pystr,
       length (reports_of k (new_after now rows w))
       = if bool_decide ((k ∉ dom (tender_history w))
                         ∧ k ∈ (tender_id <$> parsed_rows now rows))
         then 1%nat else 0%nat)
  ∧ (∀ (k : pystr) (t0 : tender),
       tender_history w !! k = Some t0 → seen_after now rows w !! k = Some t0).
Proof.
  intros Hr rows reported. subst rows reported.
  assert (Hone : parsed_rows now [r] = [t]).
  { rewrite parsed_rows_cons, Hr. done. }
  rewrite !new_after_classify, !seen_after_classify.
  repeat split.
  - unfold new_after. by rewrite classify_rows_spec.
  - rewrite parsed_rows_app, Hone, classify_app. cbn [classify fst snd].
    case_bool_decide as Hin.
    + apply not_elem_of_dom in Hin. by rewrite Hin.
    + apply elem_of_dom in Hin as [t0 ->].
      by rewrite app_nil_r.
  - rewrite parsed_rows_app, Hone, classify_app. cbn [classify fst snd].
    case_bool_decide as Hin.
    + apply not_elem_of_dom in Hin. by rewrite Hin.
    + by apply elem_of_dom in Hin as [t0 ->].
  - replace (pre ++ r :: post) with ((pre ++ [r]) ++ post) by (by rewrite <- app_assoc).
    rewrite (parsed_rows_app now (pre ++ [r])), (classify_app _ (parsed_rows now (pre ++ [r]))).
    by apply prefix_app_r.
  - intros k. apply reports_of_count.
  - intros k t0. apply classify_keeps.
Qed.

(** ** search_tenders, case by case *)

Lemma is_data_row_qualifies (r : row) : is_data_row r = row_qualifies r.
Proof. destruct r as [|c0 r]; reflexivity. Qed.

Lemma is_data_row_length (r : row) : is_data_row r = true → (9 ≤ length r)%nat.
Proof.
  rewrite is_data_row_qualifies. unfold row_qualifies.
  intros [H _]%andb_true_iff. by apply Nat.leb_le.
Qed.

Lemma data_rows_parse_log (rows : list row) :
  flat_map parse_log (List.filter is_data_row rows) = [].
Proof.
  induction rows as [|r rows IH]; simpl; [done |].
  destruct (is_data_row r) eqn:Hr; [| done]. simpl. rewrite IH.
  apply is_data_row_length in Hr. unfold parse_log.
  destruct (Nat.ltb_spec (length r) 9); [lia | done].
Qed.

Lemma search_tenders_network_failure (now : pystr) (debug : bool) (w : world) :
  search_tenders now debug NetworkFailure w
  = (Return [], add_events (prologue debug ++ [Log ERROR (ErrorSearching ConnectionError)]) w).
Proof. destruct debug; unfold search_tenders; run; world_eq. Qed.

Lemma search_tenders_http_error (now : pystr) (debug : bool) (status : N)
    (page : option (list row)) (w : world) :
  is_error_status status = true →
  search_tenders now debug (Response status page) w
  = (Return [], add_events (prologue debug ++ [Log ERROR (ErrorSearching (HTTPError status))]) w).
Proof.
  intros Hs.
  unfold search_tenders; run; cbn [fst snd]; rewrite Hs.
  destruct debug; run; world_eq.
Qed.

Lemma search_tenders_no_table (now : pystr) (debug : bool) (status : N) (w : world) :
  is_error_status status = false →
  search_tenders now debug (Response status None) w
  = (Return [], add_events (prologue debug ++ saved debug ++ [Log INFO NoResultsTable]) w).
Proof.
  intros Hs.
  unfold search_tenders; run; cbn [fst snd]; rewrite Hs.
  destruct debug; run; world_eq.
Qed.

Lemma search_tenders_no_data_rows (now : pystr) (debug : bool) (status : N)
    (tender_rows : list row) (w : world) :
  is_error_status status = false →
  List.filter is_data_row tender_rows = [] →
  search_tenders now debug (Response status (Some tender_rows)) w
  = (Return [], add_events (prologue debug ++ saved debug ++ [Log INFO NoDataRows]) w).
Proof.
  intros Hs Hrows.
  unfold search_tenders; run; cbn [fst snd]; rewrite Hs, Hrows.
  destruct debug; run; world_eq.
Qed.

Lemma search_tenders_data_rows (now : pystr) (debug : bool) (status : N)
    (tender_rows : list row) (w : world) :
  is_error_status status = false →
  List.filter is_data_row tender_rows ≠ [] →
  search_tenders now debug (Response status (Some tender_rows)) w
  = (Return (batch_result now tender_rows w).1,
     add_events
       (prologue debug ++ saved debug
        ++ [Log INFO (FoundDataRows (length (List.filter is_data_row tender_rows)));
            WriteHistory (batch_result now tender_rows w).2;
            Log INFO (FoundNewTenders (length (batch_result now tender_rows w).1))])
       (with_file (Some (JSONDocument (batch_result now tender_rows w).2))
          (with_history (batch_result now tender_rows w).2 w))).
Proof.
  intros Hs Hrows. unfold batch_result.
  unfold search_tenders; run; cbn [fst snd]; rewrite Hs.
  destruct (List.filter is_data_row tender_rows) as [|d ds] eqn:Hd; [done |].
  destruct debug; run; rewrite classify_rows_spec; rewrite <- Hd, data_rows_parse_log;
    cbn [app]; world_eq.
Qed.

(** ** A failed fetch, and when the history is written *)

Lemma writes_app (evs1 evs2 : list event) :
  writes (evs1 ++ evs2) = writes evs1 ++ writes evs2.
Proof. apply omap_app. Qed.

Lemma writes_prologue (debug : bool) : writes (prologue debug) = [].
Proof. by destruct debug. Qed.

Lemma writes_saved (debug : bool) : writes (saved debug) = [].
Proof. by destruct debug. Qed.

(** C3, as the specification states it, fails: a response with status 300
    is outside 200..299, yet [raise_for_status] lets it through, and a
    results table in its body is classified and stored. *)
Lemma status_300_is_classified :
  let fetch := Response 300 (Some [row_A001]) in
  let res := search_tenders now0 false fetch world0 in
  fails_non_2xx fetch = true
  ∧ res.1 = Return [tender_A001]
  ∧ tender_history world0 !! text "A001" = None
  ∧ tender_history res.2 !! text "A001" = Some tender_A001
  ∧ history_file world0 = None
  ∧ history_file res.2 = Some (JSONDocument (tender_history res.2)).
Proof. vm_compute. repeat split. Qed.

(** C3, amended. When the fetch fails for the code, that is when
    [requests.get] raises or the status is a client or server error (400 to
    599), [search_tenders] returns the empty list and raises nothing; it logs
    the error, and neither the history in memory nor the history file is
    touched. *)
Theorem fetch_failure_atomicity (now : pystr) (debug : bool)
    (fetch : http_outcome) (w : world) :
  fetch_raises fetch = true →
  ∃ (e : exn) (w' : world),
    search_tenders now debug fetch w = (Return [], w')
    ∧ w' = add_events (prologue debug ++ [Log ERROR (ErrorSearching e)]) w
    ∧ tender_history w' = tender_history w
    ∧ history_file w' = history_file w
    ∧ writes (prologue debug ++ [Log ERROR (ErrorSearching e)]) = [].
Proof.
  intros Hf. destruct fetch as [|status page]; simpl in Hf.
  - exists ConnectionError. eexists. split; [apply search_tenders_network_failure |].
    repeat split. by rewrite writes_app, writes_prologue.
  - exists (HTTPError status). eexists.
    split; [by apply search_tenders_http_error |].
    repeat split. by rewrite writes_app, writes_prologue.
Qed.



(** ** What a run returns *)

Lemma new_after_nil (now : pystr) (w : world) : new_after now [] w = [].
Proof. reflexivity. Qed.

Lemma seen_after_nil (now : pystr) (w : world) : seen_after now [] w = tender_history w.
Proof. reflexivity. Qed.

Lemma sent_app (evs1 evs2 : list event) : sent (evs1 ++ evs2) = sent evs1 ++ sent evs2.
Proof. apply omap_app. Qed.

Lemma sent_prologue (debug : bool) : sent (prologue debug) = [].
Proof. by destruct debug. Qed.

Lemma sent_saved (debug : bool) : sent (saved debug) = [].
Proof. by destruct debug. Qed.

(** [search_tenders] always returns: the new records and the history are
    those the loop reaches on the classified rows; beyond the history and its
    file it only adds events, none of which is a call to the LINE API. *)
Lemma search_tenders_returns (now : pystr) (debug : bool) (fetch : http_outcome)
    (w : world) :
  ∃ (evs : list event) (f : option content),
    search_tenders now debug fetch w
    = (Return (new_after now (classified_rows fetch) w),
       add_events evs
         (with_file f (with_history (seen_after now (classified_rows fetch) w) w)))
    ∧ sent evs = [].
Proof.
  destruct fetch as [|status page]; cbn [classified_rows].
  - do 2 eexists. rewrite search_tenders_network_failure, seen_after_nil, new_after_nil.
    rewrite with_history_same, with_file_same. split; [done |].
    by rewrite sent_app, sent_prologue.
  - destruct (is_error_status status) eqn:Hs.
    { do 2 eexists. rewrite search_tenders_http_error, seen_after_nil, new_after_nil by done.
      rewrite with_history_same, with_file_same. split; [done |].
      by rewrite sent_app, sent_prologue. }
    destruct page as [tender_rows|]; cbn [data_rows_of].
    + destruct (List.filter is_data_row tender_rows) as [|d ds] eqn:Hd.
      * do 2 eexists.
        rewrite search_tenders_no_data_rows, seen_after_nil, new_after_nil by done.
        rewrite with_history_same, with_file_same. split; [done |].
        by rewrite !sent_app, sent_prologue, sent_saved.
      * rewrite <- Hd. do 2 eexists.
        rewrite search_tenders_data_rows by (by rewrite ?Hd).
        rewrite seen_after_classify, new_after_classify.
        fold (batch_result now tender_rows w). split; [done |].
        by rewrite !sent_app, sent_prologue, sent_saved.
    + do 2 eexists. rewrite search_tenders_no_table, seen_after_nil, new_after_nil by done.
      rewrite with_history_same, with_file_same. split; [done |].
      by rewrite !sent_app, sent_prologue, sent_saved.
Qed.

(** ** The row filter *)

Lemma classify_new_subseteq (h : history) (ts : list tender) (t : tender) :
  t ∈ (classify h ts).1 → t ∈ ts.
Proof.
  revert h. induction ts as [|t' ts IH]; intros h; simpl; [done |].
  destruct (h !! tender_id t'); simpl.
  - intros Ht. right. by eapply IH.
  - intros [-> | Ht]%elem_of_cons; [left | right; by eapply IH].
Qed.

Lemma parsed_rows_elem (now : pystr) (rows : list row) (t : tender) :
  t ∈ parsed_rows now rows ↔ ∃ r, r ∈ rows ∧ parsed_row now r = Some t.
Proof. apply list_elem_of_omap. Qed.

Lemma filter_data_rows_elem (rows : list row) (r : row) :
  r ∈ List.filter is_data_row rows ↔ r ∈ rows ∧ is_data_row r = true.
Proof. rewrite !list_elem_of_In. apply filter_In. Qed.

Lemma row_qualifies_false (r : row) :
  (length r < 9)%nat
  ∨ (∀ c0, head r = Some c0 → re_match_integer (strip (cell_text c0)) = false) →
  is_data_row r = false.
Proof.
  rewrite is_data_row_qualifies. unfold row_qualifies. intros [Hlen | Hc0].
  - apply andb_false_iff. left. apply Nat.leb_gt. lia.
  - apply andb_false_iff. right. destruct (head r); [by apply Hc0 | done].
Qed.

Lemma row_qualifies_true (r : row) :
  is_data_row r = true →
  (9 ≤ length r)%nat
  ∧ ∃ c0, head r = Some c0 ∧ re_match_integer (strip (cell_text c0)) = true.
Proof.
  rewrite is_data_row_qualifies. unfold row_qualifies.
  intros [Hlen Hc0]%andb_true_iff. split; [by apply Nat.leb_le |].
  destruct (head r) as [c0|]; [by exists c0 | done].
Qed.

(** C8. A row of the results table with fewer than 9 cells, or whose first
    cell's trimmed text does not match the integer pattern, is skipped: the
    run is the same as on the table without it, and it returns. Every record
    [search_tenders] returns is the parse of a row of the table that has at
    least 9 cells and whose first cell's trimmed text matches the integer
    pattern. *)
Theorem row_qualification_filter (now : pystr) (debug : bool) (status : N)
    (pre : list row) (r : row) (post : list row) (w : world) :
  (length r < 9)%nat
  ∨ (∀ c0, head r = Some c0 → re_match_integer (strip (cell_text c0)) = false) →
  search_tenders now debug (Response status (Some (pre ++ r :: post))) w
  = search_tenders now debug (Response status (Some (pre ++ post))) w
  ∧ ∃ (new : list tender) (w' : world),
      search_tenders now debug (Response status (Some (pre ++ r :: post))) w
      = (Return new, w')
      ∧ ∀ t, t ∈ new →
          ∃ (r' : row) (c0 : cell),
            r' ∈ pre ++ post
            ∧ (9 ≤ length r')%nat
            ∧ head r' = Some c0
            ∧ re_match_integer (strip (cell_text c0)) = true
            ∧ parsed_row now r' = Some t.
Proof.
  intros Hr%row_qualifies_false.
  assert (Hfilter : List.filter is_data_row (pre ++ r :: post)
                    = List.filter is_data_row (pre ++ post)).
  { rewrite !List.filter_app. simpl. by rewrite Hr. }
  assert (Heq : search_tenders now debug (Response status (Some (pre ++ r :: post))) w
                = search_tenders now debug (Response status (Some (pre ++ post))) w).
  { unfold search_tenders; run; cbn [fst snd]. by rewrite Hfilter. }
  split; [done |]. rewrite Heq.
  destruct (search_tenders_returns now debug (Response status (Some (pre ++ post))) w)
    as (evs & f & -> & _).
  do 2 eexists. split; [done |]. intros t Ht.
  rewrite new_after_classify in Ht. apply classify_new_subseteq in Ht.
  apply parsed_rows_elem in Ht as (r' & Hr' & Hparse).
  cbn [classified_rows] in Hr'. destruct (is_error_status status).
  { by apply elem_of_nil in Hr'. }
  cbn [data_rows_of] in Hr'. apply filter_data_rows_elem in Hr' as [Hin Hdata].
  apply row_qualifies_true in Hdata as (Hlen & c0 & Hc0 & Hmatch).
  by exists r', c0.
Qed.

(** ** The link of a tender *)

(** C10. For a qualifying row, [_parse_tender_row] returns a tender whose
    link comes from the first anchor of the third cell by prefixing the host:
    no anchor, or an anchor without href, gives the empty string; a href that
    begins with a slash is appended to the host; any other href, an absolute
    URL included, is appended to the host and a slash. *)
Theorem link_qualification (now : pystr) (r : row) (tender_cell : cell) (w : world) :
  is_data_row r = true →
  r !! 2%nat = Some tender_cell →
  ∃ t : tender,
    _parse_tender_row now r w = (Return (Some t), w)
    ∧ dict_lookup t (text "link")
      = Some match first_anchor tender_cell with
             | None => []
             | Some attrs =>
                 match dict_lookup attrs (text "href") with
                 | None => []
                 | Some (c :: rest) =>
                     if c =? SLASH
                     then text "https://web.pcc.gov.tw" ++ c :: rest
                     else text "https://web.pcc.gov.tw/" ++ c :: rest
                 | Some [] => text "https://web.pcc.gov.tw/"
                 end
             end.
Proof.
  intros Hlen%is_data_row_length Hcell.
  rewrite parse_tender_row_spec. unfold parse_log.
  destruct (Nat.ltb_spec (length r) 9) as [? | _]; [lia |].
  rewrite add_events_nil.
  do 9 (destruct r as [|? r]; [simpl in Hlen; lia |]).
  simpl in Hcell. injection Hcell as ->.
  eexists. split; [reflexivity |].
  rewrite tender_of_cells_link. unfold tender_link. f_equal.
  destruct (first_anchor tender_cell) as [attrs|]; [| done].
  destruct (dict_lookup attrs (text "href")) as [[|ch rest]|]; [| done | done].
  unfold startswith_slash. by rewrite app_nil_r.
Qed.

(** ** Loading the history *)

Lemma load_history_missing (w : world) :
  history_file w = None → _load_history w = (Return ∅, w).
Proof. intros Hf. unfold _load_history; run. by rewrite Hf. Qed.

Lemma load_history_not_json (w : world) :
  history_file w = Some NotJSON →
  _load_history w = (Return ∅, add_events [Log ERROR HistoryDecodeError] w).
Proof. intros Hf. unfold _load_history; run. by rewrite Hf. Qed.

Lemma load_history_document (w : world) (h : history) :
  history_file w = Some (JSONDocument h) → _load_history w = (Return h, w).
Proof. intros Hf. unfold _load_history; run. by rewrite Hf. Qed.

(** C9 fails on the code. A history file whose bytes are not valid UTF-8 is
    malformed, and loading it raises [UnicodeDecodeError]: [_load_history]
    catches [JSONDecodeError] only. Nothing is logged and no history is
    returned. *)
Theorem load_history_raises_on_undecodable_file (w : world) :
  _load_history (with_file (Some NotUTF8) w)
  = (Raise UnicodeDecodeError, with_file (Some NotUTF8) w).
Proof. reflexivity. Qed.

(** ** The texts of the messages *)

Lemma starts_with_app (pat rest : pystr) : starts_with pat (pat ++ rest) = true.
Proof. induction pat as [|p pat IH]; simpl; [done |]. by rewrite N.eqb_refl. Qed.

Lemma occurs_unfold (pat s : pystr) :
  occurs pat s = starts_with pat s || match s with [] => false | _ :: s' => occurs pat s' end.
Proof. by destruct s. Qed.

Lemma occurs_app (pat before after : pystr) :
  occurs pat (before ++ pat ++ after) = true.
Proof.
  induction before as [|c before IH].
  - by rewrite occurs_unfold, app_nil_l, starts_with_app.
  - rewrite occurs_unfold. cbn [app]. rewrite IH. apply orb_true_r.
Qed.

Lemma occurs_at (pat s before after : pystr) :
  s = before ++ pat ++ after → occurs pat s = true.
Proof. intros ->. apply occurs_app. Qed.

(** The text of a notification, with the lines of the link apart. *)
Lemma format_link_lines (t : tender) :
  format_tender_notification t
  = text "🔔 新招標公告通知 🔔" ++ [LF; LF]
    ++ text "📋 標案編號: " ++ dict_get t "id" (text "N/A") ++ [LF]
    ++ text "📝 標案名稱: " ++ dict_get t "title" (text "N/A") ++ [LF]
    ++ text "🏢 招標機關: " ++ dict_get t "organization" (text "N/A") ++ [LF]
    ++ text "📅 公告日期: " ++ dict_get t "date" (text "N/A") ++ [LF]
    ++ link_lines (dict_get t "link" [])
    ++ [LF] ++ text "此通知由自動監控系統發送。".
Proof.
  unfold format_tender_notification, link_lines, dict_get. cbv zeta.
  destruct (dict_lookup t (text "link")) as [[|c link]|];
    cbv beta iota delta [from_option id]; by rewrite <- ?app_assoc.
Qed.

Lemma summary_lines_at (i0 i : nat) (tenders : list tender) (t : tender) :
  tenders !! i = Some t →
  ∃ before after : pystr,
    summary_lines i0 tenders
    = before ++ (str_of_nat (i0 + i) ++ text ". " ++ dict_get t "title" (text "N/A") ++ [LF])
      ++ after.
Proof.
  revert i0 i. induction tenders as [|t0 tenders IH]; intros i0 [|i]; [done | done | |].
  - intros [= ->]. exists [], (summary_lines (S i0) tenders).
    cbn [summary_lines app]. by rewrite Nat.add_0_r, <- !app_assoc.
  - intros Hi. destruct (IH (S i0) i Hi) as (before & after & Heq).
    exists (str_of_nat i0 ++ text ". " ++ dict_get t0 "title" (text "N/A") ++ [LF] ++ before),
      after.
    cbn [summary_lines]. rewrite Heq, Nat.add_succ_r. cbn [Nat.add].
    by rewrite <- !app_assoc.
Qed.

Lemma starts_with_prefix (pat s : pystr) : pat `prefix_of` s → starts_with pat s = true.
Proof. intros [rest ->]. apply starts_with_app. Qed.

Lemma starts_with_app_r (pat s rest : pystr) :
  starts_with pat s = true → starts_with pat (s ++ rest) = true.
Proof.
  revert s. induction pat as [|p pat IH]; intros [|c s]; cbn [starts_with app]; try done.
  intros [-> Hs]%andb_true_iff. by rewrite (IH s Hs).
Qed.

Lemma occurs_app_l (pat before s : pystr) :
  occurs pat s = true → occurs pat (before ++ s) = true.
Proof.
  intros Hs. induction before as [|c before IH]; [done |].
  rewrite occurs_unfold. cbn [app]. rewrite IH. apply orb_true_r.
Qed.

Lemma occurs_app_r (pat s after : pystr) :
  occurs pat s = true → occurs pat (s ++ after) = true.
Proof.
  induction s as [|c s IH]; rewrite (occurs_unfold pat), (occurs_unfold pat (_ ++ _)).
  - intros Hs. rewrite orb_false_r in Hs. by rewrite (starts_with_app_r _ _ _ Hs).
  - intros [Hs | Hs]%orb_true_iff.
    + by rewrite (starts_with_app_r _ _ _ Hs).
    + cbn [app]. rewrite (IH Hs). apply orb_true_r.
Qed.

Lemma summary_head :
  text " 個新招標公告符合您的關鍵字 ('交通局' 和 '水湳')"
  = text " 個新招標公告符合您的關鍵字" ++ text " ('交通局' 和 '水湳')".
Proof. vm_compute. reflexivity. Qed.

(** ** The notifier *)

Lemma calls_app (evs1 evs2 : list event) : calls (evs1 ++ evs2) = calls evs1 ++ calls evs2.
Proof. apply List.filter_app. Qed.

Lemma first_escape_bound (answers : nat → api_outcome) (from count k : nat) (e : exn) :
  first_escape answers from count = Some (k, e) → (k < count)%nat.
Proof.
  revert from k. induction count as [|count IH]; intros from k; cbn [first_escape]; [done |].
  destruct (escaping_error (answers from)); [intros [= <- _]; lia |].
  destruct (first_escape answers (S from) count) as [[k' e']|] eqn:Hrec; [| done].
  intros [= <- <-]. apply IH in Hrec. lia.
Qed.

Lemma first_escape_answer (answers : nat → api_outcome) (from count k : nat) (e : exn) :
  first_escape answers from count = Some (k, e) →
  escaping_error (answers (from + k)%nat) = Some e
  ∧ ∀ j, (j < k)%nat → escaping_error (answers (from + j)%nat) = None.
Proof.
  revert from k. induction count as [|count IH]; intros from k; cbn [first_escape]; [done |].
  destruct (escaping_error (answers from)) as [e0|] eqn:Hfrom.
  - intros [= <- <-]. rewrite Nat.add_0_r. split; [done | lia].
  - destruct (first_escape answers (S from) count) as [[k' e']|] eqn:Hrec; [| done].
    intros [= <- <-]. apply IH in Hrec as [Hk Hbefore].
    rewrite Nat.add_succ_r. split; [done |].
    intros [|j] Hj; [by rewrite Nat.add_0_r |].
    rewrite Nat.add_succ_r. apply Hbefore. lia.
Qed.

Lemma first_escape_none (answers : nat → api_outcome) (from count : nat) :
  first_escape answers from count = None ↔
  ∀ j, (j < count)%nat → escaping_error (answers (from + j)%nat) = None.
Proof.
  revert from. induction count as [|count IH]; intros from; cbn [first_escape].
  - split; [lia | done].
  - destruct (escaping_error (answers from)) as [e0|] eqn:Hfrom.
    + split; [done |]. intros H. specialize (H 0%nat). rewrite Nat.add_0_r, Hfrom in H.
      discriminate H. lia.
    + specialize (IH (S from)).
      destruct (first_escape answers (S from) count) as [[k' e']|].
      * split; [done |]. intros H. exfalso.
        assert (Some (k', e') = None) as Hn; [| done].
        apply IH. intros j Hj.
        specialize (H (S j)). rewrite Nat.add_succ_r in H. apply H. lia.
      * split; [| done]. intros _ [|j] Hj; [by rewrite Nat.add_0_r |].
        rewrite Nat.add_succ_r. apply IH; [done | lia].
Qed.

Lemma length_handed_over (messages : list pystr) (escape : option (nat * exn)) :
  (∀ k e, escape = Some (k, e) → (k < length messages)%nat) →
  length (handed_over messages escape)
  = match escape with
    | None => length messages
    | Some (k, _) => S k
    end.
Proof.
  destruct escape as [[k e]|]; [| done]. intros H. cbn [handed_over].
  rewrite length_take. specialize (H k e eq_refl). lia.
Qed.

Section notifier.

(** [self.user_id] of the notifier. *)
Variable user_id : option pystr.

Lemma send_message_spec (message : pystr) (w : world) :
  send_message user_id message w
  = match line_api w (api_calls w) with
    | Accepted =>
        (Return true,
         add_events [api_call user_id message; Log INFO SentToLine]
           (with_calls (S (api_calls w)) w))
    | Failed e =>
        if is_LineBotApiError e
        then (Return false,
              add_events [api_call user_id message; Log ERROR (ErrorSending e)]
                (with_calls (S (api_calls w)) w))
        else (Raise e, add_events [api_call user_id message] (with_calls (S (api_calls w)) w))
    end.
Proof.
  unfold send_message, call_line_api.
  destruct user_id as [[|c uid]|]; run; cbn [api_call];
    destruct (line_api w (api_calls w)) as [|e]; try destruct e; run; world_eq.
Qed.

Lemma send_message_channel_level (message : pystr) (w : world) :
  channel_level (line_api w (api_calls w)) →
  ∃ l : logline,
    send_message user_id message w
    = (Return (accepted (line_api w (api_calls w))),
       add_events [api_call user_id message; Log (if accepted (line_api w (api_calls w)) then INFO else ERROR) l]
         (with_calls (S (api_calls w)) w)).
Proof.
  intros Hc. rewrite send_message_spec.
  destruct (line_api w (api_calls w)) as [|e]; simpl in *; [by eexists |].
  rewrite Hc. by eexists.
Qed.

Lemma for_each_send_detail (tenders : list tender) (w : world) :
  (∀ n, (api_calls w ≤ n)%nat → channel_level (line_api w n)) →
  ∃ evs : list event,
    for_each tenders (send_detail user_id) w
    = (Return tt, add_events evs (with_calls (api_calls w + length tenders) w))
    ∧ sent evs = map format_tender_notification tenders.
Proof.
  revert w. induction tenders as [|t tenders IH]; intros w Hc.
  - exists []. cbn [for_each length map]. unfold ret.
    rewrite Nat.add_0_r, add_events_nil.
    replace (with_calls (api_calls w) w) with w by (by destruct w). done.
  - cbn [for_each]. unfold bind at 1. unfold send_detail at 1.
    unfold bind at 1, send_tender_notification.
    destruct (send_message_channel_level (format_tender_notification t) w
                (Hc _ (le_n _))) as [l ->].
    unfold ret at 1.
    match goal with |- context [for_each tenders _ ?w1] =>
      destruct (IH w1) as (evs & -> & Hsent) end.
    { intros n. autorewrite with world. intros Hn. apply Hc. lia. }
    eexists. split.
    + autorewrite with world. cbn [length]. do 3 f_equal. lia.
    + rewrite sent_app, Hsent. by destruct user_id as [[|c uid]|].
Qed.

(** One send: the call is made and counted whatever the answer is. *)
Lemma send_message_outcome (message : pystr) (w : world) :
  ∃ evs : list event,
    send_message user_id message w
    = (match escaping_error (line_api w (api_calls w)) with
       | None => Return (accepted (line_api w (api_calls w)))
       | Some e => Raise e
       end,
       add_events evs (with_calls (S (api_calls w)) w))
    ∧ sent evs = [message]
    ∧ calls evs = [api_call user_id message]
    ∧ forallb writes_no_file evs = true.
Proof.
  rewrite send_message_spec.
  destruct (line_api w (api_calls w)) as [|e]; cbn [escaping_error accepted].
  - eexists. split; [done |]. by destruct user_id as [[|c uid]|].
  - destruct (is_LineBotApiError e); eexists; (split; [done |]);
      by destruct user_id as [[|c uid]|].
Qed.

Lemma for_each_send_detail_outcome (tenders : list tender) (w : world) :
  ∃ evs : list event,
    for_each tenders (send_detail user_id) w
    = match first_escape (line_api w) (api_calls w) (length tenders) with
      | None =>
          (Return tt, add_events evs (with_calls (api_calls w + length tenders) w))
      | Some (k, e) => (Raise e, add_events evs (with_calls (api_calls w + S k) w))
      end
    ∧ sent evs
      = handed_over (map format_tender_notification tenders)
          (first_escape (line_api w) (api_calls w) (length tenders))
    ∧ calls evs = map (api_call user_id) (sent evs)
    ∧ forallb writes_no_file evs = true.
Proof.
  revert w. induction tenders as [|t tenders IH]; intros w.
  - exists []. cbn [for_each length map first_escape handed_over]. unfold ret.
    rewrite Nat.add_0_r, add_events_nil.
    replace (with_calls (api_calls w) w) with w by (by destruct w). done.
  - cbn [for_each length map first_escape]. unfold bind at 1. unfold send_detail at 1.
    unfold bind at 1, send_tender_notification.
    destruct (send_message_outcome (format_tender_notification t) w)
      as (evs1 & -> & Hsent1 & Hcalls1 & Hfiles1).
    destruct (escaping_error (line_api w (api_calls w))) as [e|].
    + exists evs1. rewrite Nat.add_1_r. cbn [handed_over take].
      rewrite Hsent1, Hcalls1. by rewrite take_0.
    + unfold ret at 1.
      match goal with |- context [for_each tenders _ ?w1] =>
        destruct (IH w1) as (evs2 & -> & Hsent2 & Hcalls2 & Hfiles2) end.
      autorewrite with world in *.
      exists (evs1 ++ evs2).
      rewrite sent_app, calls_app, forallb_app, Hsent1, Hcalls1, Hcalls2, Hfiles1, Hfiles2,
        Hsent2.
      destruct (first_escape (line_api w) (S (api_calls w)) (length tenders))
        as [[k e]|]; cbn [handed_over take app map andb]; autorewrite with world;
        by rewrite ?Nat.add_succ_r, ?Nat.add_succ_l.
Qed.

Lemma send_multiple_outcome (tenders : list tender) (w : world) :
  ∃ evs : list event,
    send_multiple_tenders_notification user_id tenders w
    = match first_escape (line_api w) (api_calls w) (length (batch_messages tenders)) with
      | None =>
          (Return (match tenders with
                   | [] => true
                   | _ => accepted (line_api w (api_calls w))
                   end),
           add_events evs (with_calls (api_calls w + length (batch_messages tenders)) w))
      | Some (k, e) => (Raise e, add_events evs (with_calls (api_calls w + S k) w))
      end
    ∧ sent evs
      = handed_over (batch_messages tenders)
          (first_escape (line_api w) (api_calls w) (length (batch_messages tenders)))
    ∧ calls evs = map (api_call user_id) (sent evs)
    ∧ forallb writes_no_file evs = true.
Proof.
  destruct tenders as [|t1 [|t2 tenders]].
  - exists []. cbn. unfold ret. rewrite Nat.add_0_r, add_events_nil.
    replace (with_calls (api_calls w) w) with w by (by destruct w). done.
  - cbn [send_multiple_tenders_notification batch_messages length first_escape].
    unfold send_tender_notification.
    destruct (send_message_outcome (format_tender_notification t1) w)
      as (evs & -> & Hsent & Hcalls & Hfiles).
    exists evs. rewrite Hsent, Hcalls, Nat.add_1_r.
    by destruct (escaping_error (line_api w (api_calls w))); rewrite ?Nat.add_1_r.
  - remember (t1 :: t2 :: tenders) as ts eqn:Hts.
    assert (Hsend : send_multiple_tenders_notification user_id ts
                    = (success <- send_message user_id (summary_message ts) ;;
                       for_each ts (send_detail user_id) ;; ret success)).
    { by subst ts. }
    assert (Hmsgs : batch_messages ts
                    = summary_message ts :: map format_tender_notification ts).
    { by subst ts. }
    rewrite Hsend, Hmsgs. clear Hsend Hmsgs Hts.
    cbn [length first_escape]. rewrite length_map. unfold bind at 1.
    destruct (send_message_outcome (summary_message ts) w)
      as (evs1 & -> & Hsent1 & Hcalls1 & Hfiles1).
    destruct (escaping_error (line_api w (api_calls w))) as [e|].
    + exists evs1. rewrite Nat.add_1_r. cbn [handed_over take].
      rewrite Hsent1, Hcalls1. by rewrite take_0.
    + unfold bind at 1.
      match goal with |- context [for_each ts _ ?w1] =>
        destruct (for_each_send_detail_outcome ts w1)
          as (evs2 & -> & Hsent2 & Hcalls2 & Hfiles2) end.
      autorewrite with world in *.
      exists (evs1 ++ evs2).
      rewrite sent_app, calls_app, forallb_app, Hsent1, Hcalls1, Hcalls2, Hfiles1, Hfiles2,
        Hsent2.
      destruct (first_escape (line_api w) (S (api_calls w)) (length ts))
        as [[k e]|]; cbn [handed_over take app map andb]; unfold ret;
        autorewrite with world; by rewrite ?Nat.add_succ_r, ?Nat.add_succ_l.
Qed.

(** What a batch notification does when the channel only ever answers with
    an acceptance or an API error. *)
Lemma send_multiple_channel_level (tenders : list tender)
    (w : world) :
  (∀ n, (api_calls w ≤ n)%nat → channel_level (line_api w n)) →
  ∃ evs : list event,
    send_multiple_tenders_notification user_id tenders w
    = (Return (match tenders with
               | [] => true
               | _ => accepted (line_api w (api_calls w))
               end),
       add_events evs (with_calls (api_calls w + length (batch_messages tenders)) w))
    ∧ sent evs = batch_messages tenders.
Proof.
  intros Hc. destruct tenders as [|t1 [|t2 tenders]].
  - exists []. cbn. unfold ret. rewrite Nat.add_0_r, add_events_nil.
    replace (with_calls (api_calls w) w) with w by (by destruct w). done.
  - cbn [send_multiple_tenders_notification batch_messages length].
    unfold send_tender_notification.
    destruct (send_message_channel_level (format_tender_notification t1) w
                (Hc _ (le_n _))) as [l ->].
    eexists. split.
    + rewrite Nat.add_1_r. reflexivity.
    + by destruct user_id as [[|c uid]|].
  - remember (t1 :: t2 :: tenders) as ts eqn:Hts.
    assert (Hsend : send_multiple_tenders_notification user_id ts
                    = (success <- send_message user_id (summary_message ts) ;;
                       for_each ts (send_detail user_id) ;; ret success)).
    { by subst ts. }
    assert (Hmsgs : batch_messages ts
                    = summary_message ts :: map format_tender_notification ts).
    { by subst ts. }
    rewrite Hsend, Hmsgs. unfold bind at 1.
    destruct (send_message_channel_level (summary_message ts) w (Hc _ (le_n _)))
      as [l ->].
    unfold bind at 1.
    match goal with |- context [for_each ts _ ?w1] =>
      destruct (for_each_send_detail ts w1) as (evs & -> & Hsent) end.
    { intros n. autorewrite with world. intros Hn. apply Hc. lia. }
    unfold ret. subst ts. eexists. split.
    + autorewrite with world. cbn [length]. rewrite length_map.
      do 3 f_equal. cbn [length]. lia.
    + rewrite sent_app, Hsent. by destruct user_id as [[|c uid]|].
Qed.

Lemma first_escape_channel_level (w : world) (count : nat) :
  (∀ n, (api_calls w ≤ n)%nat → channel_level (line_api w n)) →
  first_escape (line_api w) (api_calls w) count = None.
Proof.
  intros Hc. apply first_escape_none. intros j _.
  specialize (Hc (api_calls w + j)%nat (Nat.le_add_r _ _)).
  destruct (line_api w (api_calls w + j)) as [|e]; [done |].
  cbn in *. by rewrite Hc.
Qed.



End notifier.



(** ** The formatter *)

(** The text begins with the title and the four lines of the template. *)
Lemma format_shape (t : tender) :
  ∃ suffix : pystr,
    format_tender_notification t
    = text "🔔 新招標公告通知 🔔" ++ [LF; LF]
      ++ text "📋 標案編號: " ++ dict_get t "id" (text "N/A") ++ [LF]
      ++ text "📝 標案名稱: " ++ dict_get t "title" (text "N/A") ++ [LF]
      ++ text "🏢 招標機關: " ++ dict_get t "organization" (text "N/A") ++ [LF]
      ++ text "📅 公告日期: " ++ dict_get t "date" (text "N/A") ++ [LF]
      ++ suffix.
Proof.
  unfold format_tender_notification. cbv zeta.
  destruct (dict_lookup t (text "link")) as [[|c link]|]; eexists;
    rewrite <- ?app_assoc; reflexivity.
Qed.

(** C7, as the specification states it, fails: a tender without link,
    deadline and budget is rendered without any placeholder; nothing in the
    text stands for the three missing fields. *)
Lemma optional_fields_without_placeholder :
  dict_lookup tender_plain (text "link") = None
  ∧ dict_lookup tender_plain (text "deadline") = None
  ∧ dict_lookup tender_plain (text "budget") = None
  ∧ format_tender_notification tender_plain
    = text "🔔 新招標公告通知 🔔

📋 標案編號: TEST-001
📝 標案名稱: 水湳智慧城市建設計畫
🏢 招標機關: 交通局
📅 公告日期: 113/04/02

此通知由自動監控系統發送。"
  ∧ occurs (text "N/A") (format_tender_notification tender_plain) = false.
Proof. vm_compute. repeat split. Qed.

(** Each of the four fields of the template is on its line: its value, or
    [N/A] when the record has no such key. *)
Lemma format_renders (t : tender) (key label : string) :
  (key, label) ∈ placeholder_fields →
  occurs (text label ++ dict_get t key (text "N/A") ++ [LF])
    (format_tender_notification t) = true.
Proof.
  intros Hin. destruct (format_shape t) as [suffix ->].
  unfold placeholder_fields in Hin.
  repeat (apply elem_of_cons in Hin as [[= -> ->] | Hin]);
    [| | | | by apply elem_of_nil in Hin].
  - apply (occurs_at _ _ (text "🔔 新招標公告通知 🔔" ++ [LF; LF])
             (text "📝 標案名稱: " ++ dict_get t "title" (text "N/A") ++ [LF]
              ++ text "🏢 招標機關: " ++ dict_get t "organization" (text "N/A") ++ [LF]
              ++ text "📅 公告日期: " ++ dict_get t "date" (text "N/A") ++ [LF]
              ++ suffix)).
    by rewrite <- ?app_assoc.
  - apply (occurs_at _ _ (text "🔔 新招標公告通知 🔔" ++ [LF; LF]
                          ++ text "📋 標案編號: " ++ dict_get t "id" (text "N/A") ++ [LF])
             (text "🏢 招標機關: " ++ dict_get t "organization" (text "N/A") ++ [LF]
              ++ text "📅 公告日期: " ++ dict_get t "date" (text "N/A") ++ [LF]
              ++ suffix)).
    by rewrite <- ?app_assoc.
  - apply (occurs_at _ _ (text "🔔 新招標公告通知 🔔" ++ [LF; LF]
                          ++ text "📋 標案編號: " ++ dict_get t "id" (text "N/A") ++ [LF]
                          ++ text "📝 標案名稱: " ++ dict_get t "title" (text "N/A") ++ [LF])
             (text "📅 公告日期: " ++ dict_get t "date" (text "N/A") ++ [LF]
              ++ suffix)).
    by rewrite <- ?app_assoc.
  - apply (occurs_at _ _ (text "🔔 新招標公告通知 🔔" ++ [LF; LF]
                          ++ text "📋 標案編號: " ++ dict_get t "id" (text "N/A") ++ [LF]
                          ++ text "📝 標案名稱: " ++ dict_get t "title" (text "N/A") ++ [LF]
                          ++ text "🏢 招標機關: " ++ dict_get t "organization" (text "N/A") ++ [LF])
             suffix).
    by rewrite <- ?app_assoc.
Qed.

(** C7, amended. The notification of one record is the fixed template: the
    id, the title, the organization and the date (the key [date]), each on
    its own line with its value as it is, also when the value is empty, and
    with [N/A] in place of a key the record does not have. The link is
    rendered on a line of its own when it is present and not empty, and the
    text says nothing of it otherwise. The text depends on no other field:
    deadline and budget are not rendered, present or missing. *)
Theorem placeholder_rendering (t : tender) :
  (∀ key label : string,
     (key, label) ∈ placeholder_fields →
     dict_lookup t (text key) = None →
     occurs (text label ++ text "N/A" ++ [LF]) (format_tender_notification t) = true)
  ∧ (∀ link : pystr,
       dict_lookup t (text "link") = Some link → link ≠ [] →
       occurs ([LF] ++ text "🔗 詳細資訊: " ++ link ++ [LF])
         (format_tender_notification t) = true)
  ∧ (dict_lookup t (text "link") = None ∨ dict_lookup t (text "link") = Some [] →
     format_tender_notification t
     = text "🔔 新招標公告通知 🔔" ++ [LF; LF]
       ++ text "📋 標案編號: " ++ dict_get t "id" (text "N/A") ++ [LF]
       ++ text "📝 標案名稱: " ++ dict_get t "title" (text "N/A") ++ [LF]
       ++ text "🏢 招標機關: " ++ dict_get t "organization" (text "N/A") ++ [LF]
       ++ text "📅 公告日期: " ++ dict_get t "date" (text "N/A") ++ [LF]
       ++ [LF] ++ text "此通知由自動監控系統發送。")
  ∧ (∀ t' : tender,
       (∀ key : string, key ∈ rendered_keys →
          dict_lookup t' (text key) = dict_lookup t (text key)) →
       format_tender_notification t' = format_tender_notification t)
  ∧ format_tender_notification t
    = text "🔔 新招標公告通知 🔔" ++ [LF; LF]
      ++ text "📋 標案編號: " ++ dict_get t "id" (text "N/A") ++ [LF]
      ++ text "📝 標案名稱: " ++ dict_get t "title" (text "N/A") ++ [LF]
      ++ text "🏢 招標機關: " ++ dict_get t "organization" (text "N/A") ++ [LF]
      ++ text "📅 公告日期: " ++ dict_get t "date" (text "N/A") ++ [LF]
      ++ link_lines (dict_get t "link" [])
      ++ [LF] ++ text "此通知由自動監控系統發送。"
  ∧ (∀ (key label : string) (value : pystr),
       (key, label) ∈ placeholder_fields →
       dict_lookup t (text key) = Some value →
       dict_get t key (text "N/A") = value
       ∧ occurs (text label ++ value ++ [LF]) (format_tender_notification t) = true).
Proof.
  split; [| split; [| split; [| split; [| split]]]].
  - intros key label Hin Hnone.
    assert (Hget : dict_get t key (text "N/A") = text "N/A").
    { unfold dict_get. by rewrite Hnone. }
    rewrite <- Hget. by apply format_renders.
  - intros link Hlink Hne. unfold format_tender_notification. cbv zeta.
    rewrite Hlink. destruct link as [|c link]; [done |].
    apply (occurs_at _ _ (text "🔔 新招標公告通知 🔔" ++ [LF; LF]
                          ++ text "📋 標案編號: " ++ dict_get t "id" (text "N/A") ++ [LF]
                          ++ text "📝 標案名稱: " ++ dict_get t "title" (text "N/A") ++ [LF]
                          ++ text "🏢 招標機關: " ++ dict_get t "organization" (text "N/A") ++ [LF]
                          ++ text "📅 公告日期: " ++ dict_get t "date" (text "N/A") ++ [LF])
             ([LF] ++ text "此通知由自動監控系統發送。")).
    by rewrite <- ?app_assoc.
  - intros Hlink. unfold format_tender_notification. cbv zeta.
    destruct Hlink as [-> | ->]; by rewrite <- !app_assoc.
  - intros t' Hkeys. unfold format_tender_notification, dict_get. cbv zeta.
    rewrite !Hkeys; [done | unfold rendered_keys; set_solver ..].
  - apply format_link_lines.
  - intros key label value Hin Hvalue.
    assert (Hget : dict_get t key (text "N/A") = value).
    { unfold dict_get. by rewrite Hvalue. }
    split; [exact Hget |]. rewrite <- Hget. by apply format_renders.
Qed.

(** ** Two runs on the same response *)

Lemma keeps_history_ret {A} (a : A) : keeps_history (ret a).
Proof. by intros w. Qed.

Lemma keeps_history_emit (e : event) : keeps_history (emit e).
Proof. by intros w. Qed.

Lemma keeps_history_bind {A B} (m : M A) (k : A → M B) :
  keeps_history m → (∀ a, keeps_history (k a)) → keeps_history (bind m k).
Proof.
  intros Hm Hk w. unfold bind. specialize (Hm w).
  destruct (m w) as [[a|e] w']; simpl in *; [| done].
  by rewrite Hk.
Qed.

Lemma keeps_history_try_except {A} (body : M A) (catches : exn → bool)
    (handler : exn → M A) :
  keeps_history body → (∀ e, keeps_history (handler e)) →
  keeps_history (try_except body catches handler).
Proof.
  intros Hb Hh w. unfold try_except. specialize (Hb w).
  destruct (body w) as [[a|e] w']; simpl in *; [done |].
  destruct (catches e); [| done]. by rewrite Hh.
Qed.

Lemma keeps_history_call_line_api (call : event) : keeps_history (call_line_api call).
Proof. intros w. unfold call_line_api. by destruct (line_api w (api_calls w)). Qed.

Lemma keeps_history_send_message (user_id : option pystr) (message : pystr) :
  keeps_history (send_message user_id message).
Proof.
  unfold send_message. apply keeps_history_try_except.
  - apply keeps_history_bind.
    + destruct user_id as [[|c uid]|]; apply keeps_history_call_line_api.
    + intros _. apply keeps_history_bind; [apply keeps_history_emit |].
      intros _. apply keeps_history_ret.
  - intros e. apply keeps_history_bind; [apply keeps_history_emit |].
    intros _. apply keeps_history_ret.
Qed.

Lemma keeps_history_for_each {A} (l : list A) (body : A → M unit) :
  (∀ x, keeps_history (body x)) → keeps_history (for_each l body).
Proof.
  intros Hbody. induction l as [|x l IH]; simpl; [apply keeps_history_ret |].
  apply keeps_history_bind; [apply Hbody | done].
Qed.

Lemma keeps_history_send_multiple (user_id : option pystr) (tenders : list tender) :
  keeps_history (send_multiple_tenders_notification user_id tenders).
Proof.
  destruct tenders as [|t1 [|t2 tenders]]; unfold send_multiple_tenders_notification.
  - apply keeps_history_ret.
  - apply keeps_history_send_message.
  - apply keeps_history_bind; [apply keeps_history_send_message |].
    intros ok. apply keeps_history_bind; [| intros _; apply keeps_history_ret].
    apply keeps_history_for_each. intros t.
    apply keeps_history_bind; [apply keeps_history_send_message |].
    intros _. apply keeps_history_ret.
Qed.

(** The id of a parsed record does not depend on the time of the parse. *)
Lemma parsed_rows_ids (now1 now2 : pystr) (rows : list row) :
  tender_id <$> parsed_rows now1 rows = tender_id <$> parsed_rows now2 rows.
Proof.
  induction rows as [|r rows IH]; [done |].
  rewrite !parsed_rows_cons.
  do 9 (destruct r as [|? r]; [exact IH |]).
  cbn [parsed_row]. rewrite !fmap_cons, IH.
  unfold tender_id. by rewrite !tender_of_cells_id.
Qed.

(** After one run, a second run on the same rows finds every id in the
    history. *)
Lemma second_run_nothing_new (now1 now2 : pystr) (rows : list row) (w w1 : world) :
  tender_history w1 = seen_after now1 rows w →
  new_after now2 rows w1 = [] ∧ seen_after now2 rows w1 = tender_history w1.
Proof.
  intros Hw1. rewrite new_after_classify, seen_after_classify.
  rewrite classify_seen; [done |].
  apply Forall_forall. intros t Ht.
  rewrite Hw1, seen_after_classify, classify_dom.
  apply elem_of_union_r, elem_of_list_to_set.
  rewrite (parsed_rows_ids now1 now2). by apply list_elem_of_fmap_2.
Qed.

Lemma seen_after_history (now : pystr) (rows : list row) (w w' : world) :
  tender_history w' = tender_history w → seen_after now rows w' = seen_after now rows w.
Proof. intros H. by rewrite !seen_after_classify, H. Qed.

Lemma new_after_history (now : pystr) (rows : list row) (w w' : world) :
  tender_history w' = tender_history w → new_after now rows w' = new_after now rows w.
Proof. intros H. by rewrite !new_after_classify, H. Qed.

Lemma keeps_history_update_last_run (now : pystr) : keeps_history (_update_last_run now).
Proof. by intros w. Qed.

Lemma keeps_history_job_notify (now : pystr) (new : list tender) :
  keeps_history (job_notify now new).
Proof.
  unfold job_notify. apply keeps_history_bind.
  - destruct new as [|t new]; [apply keeps_history_emit |].
    apply keeps_history_bind; [apply keeps_history_emit |]. intros _.
    apply keeps_history_bind; [apply keeps_history_send_multiple |].
    intros [|]; apply keeps_history_emit.
  - intros _. apply keeps_history_bind; [apply keeps_history_update_last_run |].
    intros _. apply keeps_history_emit.
Qed.

Lemma writes_no_file_last_run (evs : list event) :
  forallb writes_no_file evs = true → ∀ t, WriteLastRun t ∉ evs.
Proof.
  intros Hall t Hin. apply list_elem_of_In in Hin.
  by apply (proj1 (forallb_forall _ _) Hall) in Hin.
Qed.

Lemma writes_no_file_writes (evs : list event) :
  forallb writes_no_file evs = true → writes evs = [].
Proof.
  induction evs as [|e evs IH]; [done |]. cbn [forallb].
  intros [He Hevs]%andb_true_iff. unfold writes. cbn [omap].
  destruct e; try done; by apply IH.
Qed.

Lemma sent_nil_calls (evs : list event) : sent evs = [] → calls evs = [].
Proof.
  induction evs as [|e evs IH]; [done |].
  destruct e; try done; exact IH.
Qed.

Lemma sent_log (l : level) (line : logline) (evs : list event) :
  sent (Log l line :: evs) = sent evs.
Proof. done. Qed.

Lemma calls_log (l : level) (line : logline) (evs : list event) :
  calls (Log l line :: evs) = calls evs.
Proof. done. Qed.

(** What the job does with the records the search returned. *)
Lemma job_notify_outcome (now : pystr) (new : list tender) (ws : world) :
  ∃ evs : list event,
    job_notify now new ws
    = match first_escape (line_api ws) (api_calls ws) (length (batch_messages new)) with
      | None =>
          (Return tt,
           add_events (evs ++ [WriteLastRun now; Log INFO JobCompleted])
             (with_last_run (LastRunText now)
                (with_calls (api_calls ws + length (batch_messages new)) ws)))
      | Some (k, e) => (Raise e, add_events evs (with_calls (api_calls ws + S k) ws))
      end
    ∧ sent evs
      = handed_over (batch_messages new)
          (first_escape (line_api ws) (api_calls ws) (length (batch_messages new)))
    ∧ calls evs = map Broadcast (sent evs)
    ∧ forallb writes_no_file evs = true.
Proof.
  unfold job_notify. destruct new as [|t new].
  - exists [Log INFO NoNewTenders]. run. cbn [batch_messages length first_escape].
    rewrite Nat.add_0_r. split; [| done].
    replace (with_calls (api_calls ws) ws) with ws by (by destruct ws). world_eq.
  - unfold bind at 1. unfold bind at 1. unfold log at 1, emit at 1. unfold bind at 1.
    destruct (send_multiple_outcome None (t :: new)
                (add_events [Log INFO (JobFound (length (t :: new)))] ws))
      as (evs & -> & Hsent & Hcalls & Hfiles).
    autorewrite with world in *.
    destruct (first_escape (line_api ws) (api_calls ws) (length (batch_messages (t :: new))))
      as [[k e]|].
    + exists (Log INFO (JobFound (length (t :: new))) :: evs).
      split; [world_eq |]. by split; [| split].
    + destruct (accepted (line_api ws (api_calls ws))).
      * exists (Log INFO (JobFound (length (t :: new))) :: evs ++ [Log INFO NotificationsSent]).
        run. split; [world_eq; by rewrite <- app_assoc |].
        rewrite sent_log, calls_log, sent_app, calls_app, !app_nil_r.
        cbn [forallb writes_no_file andb]. rewrite forallb_app, Hfiles.
        by split; [| split].
      * exists (Log INFO (JobFound (length (t :: new))) :: evs ++ [Log ERROR NotificationsFailed]).
        run. split; [world_eq; by rewrite <- app_assoc |].
        rewrite sent_log, calls_log, sent_app, calls_app, !app_nil_r.
        cbn [forallb writes_no_file andb]. rewrite forallb_app, Hfiles.
        by split; [| split].
Qed.

(** The job: the read of data/last_run.txt, which may raise; then three
    lines, the search, the notification, and the handler. *)
Lemma run_monitoring_job_steps (now : pystr) (fetch : http_outcome) (w : world) :
  run_monitoring_job now fetch w
  = match last_run_file w with
    | LastRunUnreadable e => (Raise e, add_events [Log INFO JobStarting] w)
    | _ =>
        match search_tenders now false fetch (add_events (job_prologue w) w) with
        | (Return new, ws) =>
            match job_notify now new ws with
            | (Return u, w') => (Return u, w')
            | (Raise e, w') => (Return tt, add_events [Log ERROR (JobError e)] w')
            end
        | (Raise e, ws) => (Return tt, add_events [Log ERROR (JobError e)] ws)
        end
    end.
Proof.
  unfold run_monitoring_job, job_notify, _get_last_run, job_prologue; run.
  rewrite last_run_file_add_events.
  destruct (last_run_file w) as [|s|e]; [| | done]; cbn [last_run_text];
    rewrite !add_events_add_events; cbn [app];
    (destruct (search_tenders now false fetch _) as [[[|t new]|e] ws]; [done | | done]);
    by destruct (send_multiple_tenders_notification None (t :: new) _) as [[[|]|e] w'].
Qed.

Lemma run_monitoring_job_read (now : pystr) (fetch : http_outcome) (w : world) :
  (∀ e, last_run_file w ≠ LastRunUnreadable e) →
  run_monitoring_job now fetch w
  = match search_tenders now false fetch (add_events (job_prologue w) w) with
    | (Return new, ws) =>
        match job_notify now new ws with
        | (Return u, w') => (Return u, w')
        | (Raise e, w') => (Return tt, add_events [Log ERROR (JobError e)] w')
        end
    | (Raise e, ws) => (Return tt, add_events [Log ERROR (JobError e)] ws)
    end.
Proof.
  intros Hread. rewrite run_monitoring_job_steps.
  destruct (last_run_file w) as [| |e]; [done | done | by destruct (Hread e)].
Qed.

(** The history the job leaves is the one [search_tenders] reaches, when the
    read of data/last_run.txt returns; the job does nothing otherwise. *)
Lemma run_monitoring_job_history (now : pystr) (fetch : http_outcome) (w : world) :
  tender_history (run_monitoring_job now fetch w).2
  = match last_run_file w with
    | LastRunUnreadable _ => tender_history w
    | _ => seen_after now (classified_rows fetch) w
    end.
Proof.
  rewrite run_monitoring_job_steps.
  set (w0 := add_events (job_prologue w) w).
  assert (Hw0 : tender_history w0 = tender_history w) by done.
  rewrite <- (seen_after_history now _ w w0 Hw0).
  destruct (search_tenders_returns now false fetch w0) as (evs & f & -> & _).
  match goal with |- context [job_notify now ?new ?ws] =>
    pose proof (keeps_history_job_notify now new ws) as Hk;
    destruct (job_notify now new ws) as [[[]|e'] w'] end;
    cbn [snd] in Hk; autorewrite with world in Hk;
    by destruct (last_run_file w).
Qed.

(** The file data/last_run.txt can be read after a job exactly when it could
    be read before it. *)
Lemma run_monitoring_job_last_run (now : pystr) (fetch : http_outcome) (w : world) :
  match last_run_file w with
  | LastRunUnreadable e =>
      last_run_file (run_monitoring_job now fetch w).2 = LastRunUnreadable e
  | _ => ∀ e, last_run_file (run_monitoring_job now fetch w).2 ≠ LastRunUnreadable e
  end.
Proof.
  rewrite run_monitoring_job_steps.
  set (w0 := add_events (job_prologue w) w).
  destruct (search_tenders_returns now false fetch w0) as (evs & f & -> & _).
  match goal with |- context [job_notify now ?new ?ws] =>
    destruct (job_notify_outcome now new ws) as (evs' & -> & _);
    destruct (first_escape (line_api ws) (api_calls ws) (length (batch_messages new)))
      as [[k e']|] end;
    destruct (last_run_file w) as [|s|e] eqn:Hf; cbn [snd]; autorewrite with world;
    subst w0; autorewrite with world; rewrite ?Hf; done.
Qed.

(** When the read returns and nothing is new, the job reports it and makes
    no call to the LINE API. *)
Lemma run_monitoring_job_nothing_new (now : pystr) (fetch : http_outcome) (w : world) :
  (∀ e, last_run_file w ≠ LastRunUnreadable e) →
  new_after now (classified_rows fetch) w = [] →
  ∃ (evs : list event) (f : option content),
    run_monitoring_job now fetch w
    = (Return tt,
       add_events evs
         (with_last_run (LastRunText now)
            (with_file f (with_history (seen_after now (classified_rows fetch) w) w))))
    ∧ sent evs = []
    ∧ Log INFO NoNewTenders ∈ evs.
Proof.
  intros Hread Hnew. rewrite run_monitoring_job_steps.
  set (w0 := add_events (job_prologue w) w).
  assert (Hw0 : tender_history w0 = tender_history w) by done.
  destruct (search_tenders_returns now false fetch w0) as (evs & f & Hs & Hsent).
  rewrite (new_after_history now _ w w0 Hw0), Hnew in Hs.
  rewrite (seen_after_history now _ w w0 Hw0) in Hs.
  rewrite Hs. unfold job_notify; run. subst w0.
  exists (job_prologue w ++ evs
          ++ [Log INFO NoNewTenders; WriteLastRun now; Log INFO JobCompleted]), f.
  destruct (last_run_file w) as [|s|e] eqn:Hf; [| | by destruct (Hread e)];
    (split; [| split]);
    [ f_equal; world_eq | rewrite !sent_app, Hsent; done | set_solver
    | f_equal; world_eq | rewrite !sent_app, Hsent; done | set_solver ].
Qed.

(** C2. A second run on the response of a first run, from the state the
    first run left, finds nothing new: [search_tenders] returns the empty list
    and leaves the history as it is, and the monitoring job makes no call to
    the LINE API, leaves the history as it is, reports that there is no new
    tender and returns. The job reads data/last_run.txt before its [try]:
    when that file cannot be read, the first job and the second both raise at
    the read, before any search, and the rest still holds. *)
Theorem idempotence (now1 now2 : pystr) (fetch : http_outcome) (w : world) :
  (∀ debug1 debug2 : bool,
     let w1 := (search_tenders now1 debug1 fetch w).2 in
     ∃ w2 : world,
       search_tenders now2 debug2 fetch w1 = (Return [], w2)
       ∧ tender_history w2 = tender_history w1)
  ∧ (let w1 := (run_monitoring_job now1 fetch w).2 in
     ∃ (o : outcome unit) (w2 : world) (evs : list event),
       run_monitoring_job now2 fetch w1 = (o, w2)
       ∧ trace w2 = trace w1 ++ evs
       ∧ sent evs = []
       ∧ api_calls w2 = api_calls w1
       ∧ tender_history w2 = tender_history w1
       ∧ match last_run_file w with
         | LastRunUnreadable e => o = Raise e
         | _ => o = Return tt ∧ Log INFO NoNewTenders ∈ evs
         end).
Proof.
  split.
  - intros debug1 debug2 w1.
    assert (Hw1 : tender_history w1 = seen_after now1 (classified_rows fetch) w).
    { subst w1. by destruct (search_tenders_returns now1 debug1 fetch w) as (evs & f & -> & _). }
    destruct (second_run_nothing_new now1 now2 _ w w1 Hw1) as [Hnew Hseen].
    destruct (search_tenders_returns now2 debug2 fetch w1) as (evs & f & -> & _).
    rewrite Hnew, Hseen. eexists. split; [done |]. by autorewrite with world.
  - intros w1.
    pose proof (run_monitoring_job_history now1 fetch w) as Hw1.
    pose proof (run_monitoring_job_last_run now1 fetch w) as Hl1.
    fold w1 in Hw1, Hl1.
    assert (Hread : (∀ e, last_run_file w ≠ LastRunUnreadable e) →
              ∃ (w2 : world) (evs : list event),
                run_monitoring_job now2 fetch w1 = (Return tt, w2)
                ∧ trace w2 = trace w1 ++ evs ∧ sent evs = []
                ∧ api_calls w2 = api_calls w1 ∧ tender_history w2 = tender_history w1
                ∧ Log INFO NoNewTenders ∈ evs).
    { intros Hw.
      assert (Hh : tender_history w1 = seen_after now1 (classified_rows fetch) w).
      { rewrite Hw1. destruct (last_run_file w) as [| |e]; [done | done | by destruct (Hw e)]. }
      assert (Hl : ∀ e, last_run_file w1 ≠ LastRunUnreadable e).
      { destruct (last_run_file w) as [| |e]; [done | done | by destruct (Hw e)]. }
      destruct (second_run_nothing_new now1 now2 _ w w1 Hh) as [Hnew Hseen].
      destruct (run_monitoring_job_nothing_new now2 fetch w1 Hl Hnew)
        as (evs & f & -> & Hsent & Hlog).
      rewrite Hseen. do 2 eexists. split; [done |].
      autorewrite with world. by repeat split. }
    destruct (last_run_file w) as [|s|e] eqn:Hf.
    + destruct Hread as (w2 & evs & -> & ? & ? & ? & ? & ?); [done |].
      exists (Return tt), w2, evs. by repeat split.
    + destruct Hread as (w2 & evs & -> & ? & ? & ? & ? & ?); [done |].
      exists (Return tt), w2, evs. by repeat split.
    + rewrite run_monitoring_job_steps, Hl1.
      do 3 eexists. split; [done |]. autorewrite with world. by repeat split.
Qed.

(** ** The model on concrete inputs *)

Example text_of_literal : text "N/A" = [78; 47; 65] ∧ text "水湳" = [0x6C34; 0x6E73].
Proof. split; reflexivity. Qed.

Example strip_item_number : strip (text " 2 ") = text "2".
Proof. reflexivity. Qed.

Example strip_ideographic_space : strip (0x3000 :: text "12" ++ [0xA0; LF]) = text "12".
Proof. reflexivity. Qed.

Example integer_pattern :
  re_match_integer (text "12") = true
  ∧ re_match_integer (text "１２") = true
  ∧ re_match_integer (text "項次") = false
  ∧ re_match_integer (text "1a") = false
  ∧ re_match_integer (text "-1") = false
  ∧ re_match_integer [] = false.
Proof. vm_compute. repeat split. Qed.

Example data_rows_of_sample :
  List.filter is_data_row [row_header; row_A001; row_short; row_A002]
  = [row_A001; row_A002].
Proof. vm_compute. reflexivity. Qed.

Example parsed_row_A001 :
  parsed_row now0 row_A001
  = Some [ (text "id", text "A001");
           (text "title", text "水湳智慧城市建設計畫");
           (text "organization", text "交通局");
           (text "transmission", text "01");
           (text "tender_method", text "公開招標");
           (text "tender_type", text "工程類");
           (text "announcement_date", text "113/04/02");
           (text "deadline", text "113/04/30");
           (text "budget", text "1,000,000");
           (text "link", text "https://web.pcc.gov.tw/tps/tender/A001");
           (text "found_date", text "2025-04-02 05:49:00") ].
Proof. vm_compute. reflexivity. Qed.

Example format_tender_test :
  format_tender_notification tender_test
  = text "🔔 新招標公告通知 🔔

📋 標案編號: TEST-001
📝 標案名稱: 水湳智慧城市建設計畫
🏢 招標機關: 交通局
📅 公告日期: 113/04/02

🔗 詳細資訊: https://web.pcc.gov.tw/pis/test_link

此通知由自動監控系統發送。".
Proof. vm_compute. reflexivity. Qed.

Example summary_of_two :
  summary_message [tender_test; tender_plain]
  = text "🔔 發現 2 個新招標公告符合您的關鍵字 ('交通局' 和 '水湳')

以下是標案清單:
1. 水湳智慧城市建設計畫
2. 水湳智慧城市建設計畫

詳細資訊將在後續訊息中發送。".
Proof. vm_compute. reflexivity. Qed.

(** The scenario of the specification: the history is empty and the page has
    the two data rows A001 and A002. The first job reports both, sends the
    summary and two detail messages and stores both ids; the second job, on
    the same page, sends nothing. *)
Example two_runs :
  let page := Response 200 (Some [row_header; row_A001; row_A002]) in
  let w1 := (run_monitoring_job now0 page world0).2 in
  let w2 := (run_monitoring_job now0 page w1).2 in
  length (sent (trace w1)) = 3%nat
  ∧ api_calls w1 = 3%nat
  ∧ tender_id <$> (map_to_list (tender_history w1)).*2 ≡ₚ [text "A001"; text "A002"]
  ∧ sent (trace w2) = sent (trace w1)
  ∧ api_calls w2 = 3%nat
  ∧ writes (trace w1) = [tender_history w1]
  ∧ tender_history w2 = tender_history w1.
Proof.
  cbv zeta. repeat split; try (vm_compute; reflexivity).
  vm_compute. apply perm_swap || reflexivity.
Qed.

(** ** Witnesses *)

Lemma classification_postcondition_witness :
  parsed_row now0 row_A001 = Some tender_A001
  ∧ new_after now0 ([row_A001] ++ [row_A001]) world0 = new_after now0 [row_A001] world0
  ∧ length (reports_of (text "A001")
              (new_after now0 ([row_A001] ++ row_A001 :: [row_A002]) world0)) = 1%nat.
Proof.
  pose proof (classification_postcondition now0 world0 [row_A001] row_A001 [row_A002]
                tender_A001 eq_refl) as (_ & Hnew & _ & _ & Hcount & _).
  split; [reflexivity |]. split.
  - rewrite Hnew. vm_compute. reflexivity.
  - rewrite Hcount. vm_compute. reflexivity.
Defined.

Lemma fetch_failure_atomicity_witness :
  fetch_raises (Response 503 (Some [row_A001])) = true
  ∧ ∃ (e : exn) (w' : world),
      search_tenders now0 false (Response 503 (Some [row_A001])) world0 = (Return [], w')
      ∧ tender_history w' = tender_history world0
      ∧ history_file w' = history_file world0.
Proof.
  split; [reflexivity |].
  destruct (fetch_failure_atomicity now0 false (Response 503 (Some [row_A001])) world0 eq_refl)
    as (e & w' & Hrun & _ & Hh & Hf & _).
  exists e, w'. split; [exact Hrun |]. split; [exact Hh | exact Hf].
Defined.


Lemma world_flaky_channel_level :
  ∀ n, (api_calls world_flaky ≤ n)%nat → channel_level (line_api world_flaky n).
Proof. intros [|[|n]] _; simpl; auto. Defined.


Lemma world_rejecting_channel_level :
  ∀ n, (api_calls world_rejecting ≤ n)%nat → channel_level (line_api world_rejecting n).
Proof. intros n _. reflexivity. Defined.


Lemma placeholder_rendering_witness :
  (("date", "📅 公告日期: ")%string ∈ placeholder_fields
   ∧ dict_lookup tender_A001 (text "date") = None
   ∧ occurs (text "📅 公告日期: " ++ text "N/A" ++ [LF])
       (format_tender_notification tender_A001) = true)
  ∧ (dict_lookup tender_test (text "link") = Some (text "https://web.pcc.gov.tw/pis/test_link")
     ∧ text "https://web.pcc.gov.tw/pis/test_link" ≠ []
     ∧ occurs ([LF] ++ text "🔗 詳細資訊: " ++ text "https://web.pcc.gov.tw/pis/test_link" ++ [LF])
         (format_tender_notification tender_test) = true)
  ∧ ((∀ key : string, key ∈ rendered_keys →
        dict_lookup (tender_plain ++ [(text "deadline", text "113/04/30")]) (text key)
        = dict_lookup tender_plain (text key))
     ∧ format_tender_notification (tender_plain ++ [(text "deadline", text "113/04/30")])
       = format_tender_notification tender_plain).
Proof.
  assert (Hin : ("date", "📅 公告日期: ")%string ∈ placeholder_fields).
  { unfold placeholder_fields. do 3 apply list_elem_of_further. apply list_elem_of_here. }
  assert (Hne : text "https://web.pcc.gov.tw/pis/test_link" ≠ []).
  { vm_compute. discriminate. }
  assert (Hkeys : ∀ key : string, key ∈ rendered_keys →
            dict_lookup (tender_plain ++ [(text "deadline", text "113/04/30")]) (text key)
            = dict_lookup tender_plain (text key)).
  { intros key Hkey. unfold rendered_keys in Hkey.
    repeat (apply elem_of_cons in Hkey as [-> | Hkey]); [reflexivity .. |].
    by apply elem_of_nil in Hkey. }
  split; [| split].
  - split; [exact Hin |]. split; [reflexivity |].
    exact (proj1 (placeholder_rendering tender_A001) _ _ Hin eq_refl).
  - split; [reflexivity |]. split; [exact Hne |].
    exact (proj1 (proj2 (placeholder_rendering tender_test)) _ eq_refl Hne).
  - split; [exact Hkeys |].
    exact (proj1 (proj2 (proj2 (proj2 (placeholder_rendering tender_plain)))) _ Hkeys).
Defined.

Lemma row_qualification_filter_witness :
  ((length row_short < 9)%nat
   ∨ (∀ c0, head row_short = Some c0 → re_match_integer (strip (cell_text c0)) = false))
  ∧ search_tenders now0 false (Response 200 (Some ([row_header] ++ row_short :: [row_A001]))) world0
    = search_tenders now0 false (Response 200 (Some ([row_header] ++ [row_A001]))) world0.
Proof.
  assert (Hshort : (length row_short < 9)%nat
                   ∨ (∀ c0, head row_short = Some c0
                            → re_match_integer (strip (cell_text c0)) = false)).
  { left. simpl. lia. }
  split; [exact Hshort |].
  exact (proj1 (row_qualification_filter now0 false 200 [row_header] row_short [row_A001]
                  world0 Hshort)).
Defined.

Lemma link_qualification_witness :
  is_data_row row_A002 = true
  ∧ row_A002 !! 2%nat
    = Some (td_link "A002" "水湳經貿園區交通規劃" "https://web.pcc.gov.tw/tps/A002")
  ∧ ∃ t : tender,
      _parse_tender_row now0 row_A002 world0 = (Return (Some t), world0)
      ∧ dict_lookup t (text "link")
        = Some (text "https://web.pcc.gov.tw/https://web.pcc.gov.tw/tps/A002").
Proof.
  split; [reflexivity |]. split; [reflexivity |].
  destruct (link_qualification now0 row_A002
              (td_link "A002" "水湳經貿園區交通規劃" "https://web.pcc.gov.tw/tps/A002")
              world0 eq_refl eq_refl) as (t & Hrun & Hlink).
  exists t. split; [exact Hrun |]. rewrite Hlink. reflexivity.
Defined.

(** * Further properties of the code *)

(** ** Trimming and splitting *)

Lemma drop_while_nil_iff {A} (p : A → bool) (l : list A) :
  drop_while p l = [] ↔ forallb p l = true.
Proof.
  induction l as [|x l IH]; simpl; [done |].
  destruct (p x); simpl; [done |]. split; discriminate.
Qed.

Lemma drop_while_head {A} (p : A → bool) (l : list A) (x : A) (l' : list A) :
  drop_while p l = x :: l' → p x = false.
Proof.
  induction l as [|y l IH]; simpl; [done |].
  destruct (p y) eqn:Hy; [done |]. by intros [= <- <-].
Qed.

Lemma drop_while_split {A} (p : A → bool) (l : list A) :
  ∃ pre, l = pre ++ drop_while p l ∧ forallb p pre = true.
Proof.
  induction l as [|x l (pre & Hl & Hpre)]; simpl; [by exists [] |].
  destruct (p x) eqn:Hx.
  - exists (x :: pre). simpl. rewrite Hx, Hpre. split; [by f_equal | done].
  - by exists [].
Qed.

Lemma forallb_rev {A} (p : A → bool) (l : list A) : forallb p (rev l) = forallb p l.
Proof.
  induction l as [|x l IH]; simpl; [done |].
  rewrite forallb_app, IH. simpl. rewrite andb_true_r. apply andb_comm.
Qed.

(** [s.strip()] cuts whitespace off both ends of [s] and nothing else. *)
Lemma strip_split (s : pystr) :
  ∃ a b, s = a ++ strip s ++ b ∧ all_space a = true ∧ all_space b = true.
Proof.
  unfold strip, all_space.
  destruct (drop_while_split isspace s) as (a & Hs & Ha).
  destruct (drop_while_split isspace (rev (drop_while isspace s))) as (b & Hd & Hb).
  exists a, (rev b). split; [| split; [done | by rewrite forallb_rev]].
  rewrite Hs at 1. f_equal.
  rewrite <- (rev_involutive (drop_while isspace s)) at 1.
  rewrite Hd at 1. by rewrite rev_app_distr.
Qed.

Lemma strip_nil_iff (s : pystr) : strip s = [] ↔ all_space s = true.
Proof.
  unfold strip, all_space. split.
  - intros H. apply (f_equal (@rev N)) in H. rewrite rev_involutive in H. simpl in H.
    apply drop_while_nil_iff in H. rewrite forallb_rev in H.
    destruct (drop_while_split isspace s) as (a & Hs & Ha).
    rewrite Hs, forallb_app, Ha, H. done.
  - intros H. apply drop_while_nil_iff in H. by rewrite H.
Qed.

Lemma last_rev_head {A} (l : list A) : last (rev l) = head l.
Proof. destruct l as [|x l]; simpl; [done |]. apply last_snoc. Qed.

Lemma strip_last (s : pystr) (c : N) : last (strip s) = Some c → isspace c = false.
Proof.
  unfold strip. rewrite last_rev_head.
  destruct (drop_while isspace (rev (drop_while isspace s))) as [|x l] eqn:Hd; [done |].
  intros [= <-]. by apply drop_while_head in Hd.
Qed.

Lemma strip_head (s : pystr) (c : N) : head (strip s) = Some c → isspace c = false.
Proof.
  intros Hc. destruct (strip_split s) as (a & b & Hs & Ha & Hb).
  destruct (strip s) as [|x l] eqn:Hstrip; [done |]. injection Hc as ->.
  destruct (drop_while_split isspace s) as (a' & Hs' & Ha').
  unfold strip in Hstrip.
  destruct (drop_while isspace s) as [|y d] eqn:Hd; [done |].
  pose proof (drop_while_head _ _ _ _ Hd) as Hy.
  destruct (drop_while_split isspace (rev (y :: d))) as (b' & Hr & Hb').
  apply (f_equal (@rev N)) in Hr. rewrite rev_involutive, rev_app_distr, Hstrip in Hr.
  simpl in Hr. by injection Hr as -> _.
Qed.

Lemma strip_elem_of (s : pystr) (c : N) : c ∈ strip s → c ∈ s.
Proof.
  intros Hc. destruct (strip_split s) as (a & b & Hs & _). rewrite Hs. set_solver.
Qed.

Lemma strip_cons_nonspace (c : N) (s : pystr) : isspace c = false → strip (c :: s) ≠ [].
Proof.
  intros Hc H. apply strip_nil_iff in H. unfold all_space in H. simpl in H.
  by rewrite Hc in H.
Qed.

Lemma split_line_fst_no_LF (s : pystr) : LF ∉ (split_line s).1.
Proof.
  induction s as [|c s IH]; simpl; [set_solver |].
  destruct (N.eqb_spec c LF) as [-> | Hne]; simpl; [set_solver |].
  destruct (split_line s) as [hd tl]. simpl in *. set_solver.
Qed.

Lemma split_line_join (s : pystr) :
  s = (split_line s).1 ++ match (split_line s).2 with
                          | Some rest => LF :: rest
                          | None => []
                          end.
Proof.
  induction s as [|c s IH]; simpl; [done |].
  destruct (N.eqb_spec c LF) as [-> | Hne]; simpl; [done |].
  destruct (split_line s) as [hd tl]. simpl in *. by f_equal.
Qed.

Lemma split_line_no_LF (s : pystr) : LF ∉ s → (split_line s).2 = None.
Proof.
  induction s as [|c s IH]; simpl; [done |]. intros Hin.
  destruct (N.eqb_spec c LF) as [-> | Hne]; [set_solver |].
  destruct (split_line s) as [hd tl]. simpl in *. apply IH. set_solver.
Qed.

Lemma isspace_LF : isspace LF = true.
Proof. reflexivity. Qed.

(** ** What a parsed tender looks like *)

Lemma dict_lookup_title (v1 v2 v3 v4 v5 v6 v7 v8 v9 v10 v11 : pystr) :
  dict_lookup
    [ (text "id", v1); (text "title", v2); (text "organization", v3);
      (text "transmission", v4); (text "tender_method", v5);
      (text "tender_type", v6); (text "announcement_date", v7);
      (text "deadline", v8); (text "budget", v9); (text "link", v10);
      (text "found_date", v11) ] (text "title") = Some v2.
Proof. vm_compute. reflexivity. Qed.

Lemma parsed_row_cells (now : pystr) (r : row) (t : tender) :
  parsed_row now r = Some t →
  ∃ c0 c1 c2 c3 c4 c5 c6 c7 c8 rest,
    r = c0 :: c1 :: c2 :: c3 :: c4 :: c5 :: c6 :: c7 :: c8 :: rest
    ∧ t = tender_of_cells now c0 c1 c2 c3 c4 c5 c6 c7 c8.
Proof.
  do 9 (destruct r as [|? r]; [done |]). intros [= <-]. by do 10 eexists.
Qed.

(** X1. [_parse_tender_row] never fails, on any row: with fewer than 9 cells
    it logs one warning that carries the number of cells and returns [None];
    with 9 cells or more it returns a tender and logs nothing. Its handler is
    never reached, and the cells after the ninth are never read. *)
Theorem parse_tender_row_never_fails (now : pystr) (r : row) (w : world) :
  ∃ res : option tender,
    _parse_tender_row now r w
    = (Return res,
       add_events (if (length r <? 9)%nat
                   then [Log WARNING (InsufficientCells (length r))] else []) w)
    ∧ (res = None ↔ (length r < 9)%nat)
    ∧ (∀ more : list cell,
         (9 ≤ length r)%nat →
         _parse_tender_row now (r ++ more) w = (Return res, w)).
Proof.
  exists (parsed_row now r). split; [apply parse_tender_row_spec |].
  split; [apply parsed_row_length |].
  intros more Hlen. rewrite parse_tender_row_spec. unfold parse_log.
  rewrite length_app.
  destruct (Nat.ltb_spec (length r + length more) 9) as [? | _]; [lia |].
  rewrite add_events_nil. do 2 f_equal.
  do 9 (destruct r as [|? r]; [simpl in Hlen; lia |]). reflexivity.
Qed.

Lemma parse_tender_row_never_fails_witness :
  (9 ≤ length row_A001)%nat
  ∧ _parse_tender_row now0 (row_A001 ++ [td "extra"]) world0
    = (Return (Some tender_A001), world0)
  ∧ _parse_tender_row now0 row_short world0
    = (Return None, add_events [Log WARNING (InsufficientCells 2)] world0).
Proof.
  assert (Hlen : (9 ≤ length row_A001)%nat) by (simpl; lia).
  destruct (parse_tender_row_never_fails now0 row_A001 world0) as (res & Hrun & _ & Hmore).
  destruct (parse_tender_row_never_fails now0 row_short world0) as (res' & Hrun' & Hnone & _).
  split; [exact Hlen |]. split.
  - rewrite (Hmore [td "extra"] Hlen).
    rewrite parse_tender_row_spec, add_events_nil in Hrun. injection Hrun as <-.
    reflexivity.
  - rewrite Hrun'. rewrite (proj2 Hnone); [reflexivity | simpl; lia].
Defined.

(** X2. The id of a parsed tender is the first line of the trimmed text of
    the third cell, trimmed: it holds no line feed and neither begins nor ends
    with whitespace. It is empty exactly when the text of that cell is nothing
    but whitespace. *)
Theorem parsed_tender_id_shape (now : pystr) (r : row) (t : tender) (tender_cell : cell) :
  parsed_row now r = Some t →
  r !! 2%nat = Some tender_cell →
  dict_lookup t (text "id") = Some (tender_id t)
  ∧ tender_id t = strip (split_line (strip (cell_get_text_lines tender_cell))).1
  ∧ (LF ∉ tender_id t)
  ∧ (∀ c, head (tender_id t) = Some c → isspace c = false)
  ∧ (∀ c, last (tender_id t) = Some c → isspace c = false)
  ∧ (tender_id t = [] ↔ all_space (cell_get_text_lines tender_cell) = true).
Proof.
  intros Hp Hcell. pose proof (parsed_row_has_id _ _ _ Hp) as Hid.
  apply parsed_row_cells in Hp as (c0 & c1 & c2 & c3 & c4 & c5 & c6 & c7 & c8 & rest & -> & ->).
  simpl in Hcell. injection Hcell as ->.
  assert (Heq : tender_id (tender_of_cells now c0 c1 tender_cell c3 c4 c5 c6 c7 c8)
                = strip (split_line (strip (cell_get_text_lines tender_cell))).1).
  { unfold tender_id. by rewrite tender_of_cells_id. }
  split; [done |]. split; [exact Heq |]. rewrite Heq. clear Heq Hid.
  set (S := strip (cell_get_text_lines tender_cell)).
  split; [| split; [| split]].
  - intros Hin%strip_elem_of. by apply split_line_fst_no_LF in Hin.
  - apply strip_head.
  - apply strip_last.
  - rewrite <- strip_nil_iff. fold S. split.
    + intros Hnil. destruct S as [|c S'] eqn:HS; [done |]. exfalso.
      assert (Hc : isspace c = false).
      { apply (strip_head (cell_get_text_lines tender_cell)). fold S. by rewrite HS. }
      simpl in Hnil. destruct (N.eqb_spec c LF) as [-> | Hne]; [by rewrite isspace_LF in Hc |].
      destruct (split_line S') as [hd tl]. simpl in Hnil.
      by apply strip_cons_nonspace in Hnil.
    + by intros ->.
Qed.

Lemma parsed_tender_id_shape_witness :
  parsed_row now0 row_blank = Some (tender_of_cells now0
    (td "4") (td "交通局") (Cell [text "  "; text " "] None)
    (td "01") (td "公開招標") (td "工程類") (td "113/04/02") (td "113/04/30") (td "0"))
  ∧ row_blank !! 2%nat = Some (Cell [text "  "; text " "] None)
  ∧ tender_id (tender_of_cells now0
      (td "4") (td "交通局") (Cell [text "  "; text " "] None)
      (td "01") (td "公開招標") (td "工程類") (td "113/04/02") (td "113/04/30") (td "0")) = [].
Proof.
  split; [reflexivity |]. split; [reflexivity |].
  apply (parsed_tender_id_shape now0 row_blank _ (Cell [text "  "; text " "] None)
           eq_refl eq_refl).
  reflexivity.
Defined.

(** X3. The title of a parsed tender is never empty and neither begins nor
    ends with whitespace: it is the trimmed rest of the cell's text after its
    first line, and [Unknown Title] when the trimmed text is a single line. *)
Theorem parsed_tender_title_shape (now : pystr) (r : row) (t : tender) (tender_cell : cell) :
  parsed_row now r = Some t →
  r !! 2%nat = Some tender_cell →
  ∃ title : pystr,
    dict_lookup t (text "title") = Some title
    ∧ title ≠ []
    ∧ (∀ c, head title = Some c → isspace c = false)
    ∧ (∀ c, last title = Some c → isspace c = false)
    ∧ (LF ∉ strip (cell_get_text_lines tender_cell) → title = text "Unknown Title").
Proof.
  intros Hp Hcell.
  apply parsed_row_cells in Hp as (c0 & c1 & c2 & c3 & c4 & c5 & c6 & c7 & c8 & rest & -> & ->).
  simpl in Hcell. injection Hcell as ->.
  unfold tender_of_cells. cbv zeta. rewrite dict_lookup_title.
  remember (strip (cell_get_text_lines tender_cell)) as S eqn:HeqS.
  eexists. split; [reflexivity |].
  destruct (split_line S).2 as [rest'|] eqn:Hsplit.
  - pose proof (split_line_join S) as HS. rewrite Hsplit in HS.
    remember (split_line S).1 as hd eqn:Hhd. clear Hhd.
    assert (Hrest : all_space rest' = false).
    { destruct rest' as [|x rest' _] using rev_ind.
      - assert (Hl : last S = Some LF) by (rewrite HS; apply last_snoc).
        rewrite HeqS in Hl. apply strip_last in Hl. by rewrite isspace_LF in Hl.
      - assert (Hl : last S = Some x).
        { rewrite HS. replace (hd ++ LF :: rest' ++ [x]) with ((hd ++ LF :: rest') ++ [x])
            by (by rewrite <- app_assoc). apply last_snoc. }
        rewrite HeqS in Hl. apply strip_last in Hl.
        unfold all_space. rewrite forallb_app. simpl. by rewrite Hl, andb_false_r. }
    split; [| split; [apply strip_head | split; [apply strip_last |]]].
    + intros Hnil%strip_nil_iff. congruence.
    + intros Hno. apply split_line_no_LF in Hno. congruence.
  - split; [by vm_compute |]. split; [| split; [| done]].
    + intros c. vm_compute. by intros [= <-].
    + intros c. vm_compute. by intros [= <-].
Qed.

Lemma parsed_tender_title_shape_witness :
  parsed_row now0 row_untitled = Some (tender_of_cells now0
    (td "5") (td "交通局") (Cell [text " A005 "] None)
    (td "01") (td "公開招標") (td "工程類") (td "113/04/02") (td "113/04/30") (td "0"))
  ∧ row_untitled !! 2%nat = Some (Cell [text " A005 "] None)
  ∧ ∃ title : pystr,
      dict_lookup (tender_of_cells now0
        (td "5") (td "交通局") (Cell [text " A005 "] None)
        (td "01") (td "公開招標") (td "工程類") (td "113/04/02") (td "113/04/30") (td "0"))
        (text "title") = Some title
      ∧ title = text "Unknown Title".
Proof.
  split; [reflexivity |]. split; [reflexivity |].
  destruct (parsed_tender_title_shape now0 row_untitled _ (Cell [text " A005 "] None)
              eq_refl eq_refl) as (title & Hlookup & _ & _ & _ & Hunknown).
  exists title. split; [exact Hlookup |]. apply Hunknown.
  vm_compute. intros Hin. repeat (apply elem_of_cons in Hin as [Hin | Hin]; [discriminate |]).
  by apply elem_of_nil in Hin.
Defined.

(** ** What a run reports and stores *)

Lemma classify_new_fresh (h : history) (ts : list tender) (t : tender) :
  t ∈ (classify h ts).1 → h !! tender_id t = None.
Proof.
  revert h. induction ts as [|t' ts IH]; intros h; simpl; [by intros ?%elem_of_nil |].
  destruct (h !! tender_id t') eqn:Hid; simpl; [apply IH |].
  intros [-> | Hin]%elem_of_cons; [done |].
  apply IH in Hin. destruct (decide (tender_id t' = tender_id t)) as [Heq | Hne].
  - by rewrite Heq, lookup_insert_eq in Hin.
  - by rewrite lookup_insert_ne in Hin.
Qed.

Lemma classify_new_stored (h : history) (ts : list tender) (t : tender) :
  t ∈ (classify h ts).1 → (classify h ts).2 !! tender_id t = Some t.
Proof.
  revert h. induction ts as [|t' ts IH]; intros h; simpl; [by intros ?%elem_of_nil |].
  destruct (h !! tender_id t') eqn:Hid; simpl; [apply IH |].
  intros [-> | Hin]%elem_of_cons; [| by apply IH].
  apply classify_keeps, lookup_insert_eq.
Qed.

Lemma classify_new_nodup (h : history) (ts : list tender) :
  NoDup (tender_id <$> (classify h ts).1).
Proof.
  revert h. induction ts as [|t ts IH]; intros h; simpl; [constructor |].
  destruct (h !! tender_id t) eqn:Hid; simpl; [apply IH |].
  constructor; [| apply IH].
  intros (t' & Heq & Hin)%list_elem_of_fmap.
  apply classify_new_fresh in Hin. by rewrite <- Heq, lookup_insert_eq in Hin.
Qed.

Lemma classify_new_sublist (h : history) (ts : list tender) :
  (classify h ts).1 `sublist_of` ts.
Proof.
  revert h. induction ts as [|t ts IH]; intros h; simpl; [done |].
  destruct (h !! tender_id t); simpl.
  - by apply sublist_cons.
  - by apply sublist_skip.
Qed.

Lemma classify_subseteq (h : history) (ts : list tender) : h ⊆ (classify h ts).2.
Proof. apply map_subseteq_spec. intros k t. apply classify_keeps. Qed.

(** What [search_tenders] does, for every outcome of the HTTP exchange. *)
Lemma search_tenders_result (now : pystr) (debug : bool) (fetch : http_outcome)
    (w : world) :
  ∃ evs : list event,
    search_tenders now debug fetch w
    = (Return (new_after now (classified_rows fetch) w),
       add_events evs
         (with_file (file_after now fetch w)
            (with_history (seen_after now (classified_rows fetch) w) w)))
    ∧ sent evs = []
    ∧ writes evs = match classified_rows fetch with
                   | [] => []
                   | _ :: _ => [seen_after now (classified_rows fetch) w]
                   end.
Proof.
  unfold file_after.
  destruct fetch as [|status page]; cbn [classified_rows].
  - eexists. rewrite search_tenders_network_failure, seen_after_nil, new_after_nil.
    rewrite with_history_same, with_file_same. split; [done |].
    by rewrite sent_app, writes_app, sent_prologue, writes_prologue.
  - destruct (is_error_status status) eqn:Hs.
    { eexists. rewrite search_tenders_http_error, seen_after_nil, new_after_nil by done.
      rewrite with_history_same, with_file_same. split; [done |].
      by rewrite sent_app, writes_app, sent_prologue, writes_prologue. }
    destruct page as [tender_rows|]; cbn [data_rows_of].
    + destruct (List.filter is_data_row tender_rows) as [|d ds] eqn:Hd.
      * eexists.
        rewrite search_tenders_no_data_rows, seen_after_nil, new_after_nil by done.
        rewrite with_history_same, with_file_same. split; [done |].
        by rewrite !sent_app, !writes_app, sent_prologue, sent_saved,
          writes_prologue, writes_saved.
      * rewrite <- Hd. eexists.
        rewrite search_tenders_data_rows by (by rewrite ?Hd).
        rewrite seen_after_classify, new_after_classify.
        fold (batch_result now tender_rows w). split; [done |].
        rewrite Hd at 1. rewrite Hd at 1.
        by rewrite !sent_app, !writes_app, sent_prologue, sent_saved,
          writes_prologue, writes_saved.
    + eexists. rewrite search_tenders_no_table, seen_after_nil, new_after_nil by done.
      rewrite with_history_same, with_file_same. split; [done |].
      by rewrite !sent_app, !writes_app, sent_prologue, sent_saved,
        writes_prologue, writes_saved.
Qed.

(** X4. The list [search_tenders] returns, whenever it returns one: the
    records come in the order of the page, their ids are pairwise distinct,
    none of these ids was in the history before the run, and after the run
    the history holds each returned record under its id. *)
Theorem returned_records_are_new (now : pystr) (debug : bool) (fetch : http_outcome)
    (w w' : world) (new : list tender) :
  search_tenders now debug fetch w = (Return new, w') →
  new `sublist_of` parsed_rows now (classified_rows fetch)
  ∧ NoDup (tender_id <$> new)
  ∧ (∀ t, t ∈ new →
       tender_history w !! tender_id t = None
       ∧ tender_history w' !! tender_id t = Some t).
Proof.
  destruct (search_tenders_result now debug fetch w) as (evs & -> & _).
  intros [= <- <-].
  autorewrite with world. rewrite new_after_classify, seen_after_classify.
  split; [apply classify_new_sublist |]. split; [apply classify_new_nodup |].
  intros t Ht. split; [by eapply classify_new_fresh | by apply classify_new_stored].
Qed.

Lemma returned_records_are_new_witness :
  ∃ (new : list tender) (w' : world),
    search_tenders now0 false
      (Response 200 (Some [row_header; row_A001; row_A001])) world0
    = (Return new, w')
    ∧ tender_A001 ∈ parsed_rows now0 [row_A001]
    ∧ NoDup (tender_id <$> new).
Proof.
  destruct (search_tenders_result now0 false
              (Response 200 (Some [row_header; row_A001; row_A001])) world0)
    as (evs & Hrun & _).
  do 2 eexists. split; [exact Hrun |]. split; [apply list_elem_of_here |].
  exact (proj1 (proj2 (returned_records_are_new _ _ _ _ _ _ Hrun))).
Defined.



(** ** Starting a scraper *)

Lemma init_scraper_spec (w : world) :
  init_scraper w
  = match history_file w with
    | None => (Return tt, with_history ∅ w)
    | Some NotUTF8 => (Raise UnicodeDecodeError, w)
    | Some TooDeep => (Raise RecursionError, w)
    | Some NotJSON => (Return tt, with_history ∅ (add_events [Log ERROR HistoryDecodeError] w))
    | Some (JSONDocument h) => (Return tt, with_history h w)
    end.
Proof.
  unfold init_scraper, _load_history; run.
  destruct (history_file w) as [[| | |h]|]; reflexivity.
Qed.

(** ** The job, step by step *)

Lemma keeps_file_ret {A} (a : A) : keeps_file (ret a).
Proof. by intros w. Qed.

Lemma keeps_file_emit (e : event) : keeps_file (emit e).
Proof. by intros w. Qed.

Lemma keeps_file_bind {A B} (m : M A) (k : A → M B) :
  keeps_file m → (∀ a, keeps_file (k a)) → keeps_file (bind m k).
Proof.
  intros Hm Hk w. unfold bind. specialize (Hm w).
  destruct (m w) as [[a|e] w']; simpl in *; [| done].
  by rewrite Hk.
Qed.

Lemma keeps_file_try_except {A} (body : M A) (catches : exn → bool)
    (handler : exn → M A) :
  keeps_file body → (∀ e, keeps_file (handler e)) →
  keeps_file (try_except body catches handler).
Proof.
  intros Hb Hh w. unfold try_except. specialize (Hb w).
  destruct (body w) as [[a|e] w']; simpl in *; [done |].
  destruct (catches e); [| done]. by rewrite Hh.
Qed.

Lemma keeps_file_send_message (user_id : option pystr) (message : pystr) :
  keeps_file (send_message user_id message).
Proof.
  unfold send_message. apply keeps_file_try_except.
  - apply keeps_file_bind.
    + destruct user_id as [[|c uid]|]; intros w; unfold call_line_api;
        by destruct (line_api w (api_calls w)).
    + intros _. apply keeps_file_bind; [apply keeps_file_emit |].
      intros _. apply keeps_file_ret.
  - intros e. apply keeps_file_bind; [apply keeps_file_emit |].
    intros _. apply keeps_file_ret.
Qed.

Lemma keeps_file_for_each {A} (l : list A) (body : A → M unit) :
  (∀ x, keeps_file (body x)) → keeps_file (for_each l body).
Proof.
  intros Hbody. induction l as [|x l IH]; simpl; [apply keeps_file_ret |].
  apply keeps_file_bind; [apply Hbody | done].
Qed.

Lemma keeps_file_send_multiple (user_id : option pystr) (tenders : list tender) :
  keeps_file (send_multiple_tenders_notification user_id tenders).
Proof.
  destruct tenders as [|t1 [|t2 tenders]]; unfold send_multiple_tenders_notification.
  - apply keeps_file_ret.
  - apply keeps_file_send_message.
  - apply keeps_file_bind; [apply keeps_file_send_message |].
    intros ok. apply keeps_file_bind; [| intros _; apply keeps_file_ret].
    apply keeps_file_for_each. intros t.
    apply keeps_file_bind; [apply keeps_file_send_message |].
    intros _. apply keeps_file_ret.
Qed.

Lemma keeps_file_update_last_run (now : pystr) : keeps_file (_update_last_run now).
Proof. by intros w. Qed.

Lemma keeps_file_job_notify (now : pystr) (new : list tender) :
  keeps_file (job_notify now new).
Proof.
  unfold job_notify. apply keeps_file_bind.
  - destruct new as [|t new]; [apply keeps_file_emit |].
    apply keeps_file_bind; [apply keeps_file_emit |]. intros _.
    apply keeps_file_bind; [apply keeps_file_send_multiple |].
    intros [|]; apply keeps_file_emit.
  - intros _. apply keeps_file_bind; [apply keeps_file_update_last_run |].
    intros _. apply keeps_file_emit.
Qed.

(** The search of the job, from the world the job started in. *)
Lemma run_monitoring_job_search (now : pystr) (fetch : http_outcome) (w : world) :
  ∃ evs : list event,
    search_tenders now false fetch (add_events (job_prologue w) w)
    = (Return (new_after now (classified_rows fetch) w),
       add_events evs
         (with_file (file_after now fetch w)
            (with_history (seen_after now (classified_rows fetch) w) w)))
    ∧ sent evs = []
    ∧ (∀ t, WriteLastRun t ∉ evs)
    ∧ writes evs = match classified_rows fetch with
                   | [] => []
                   | _ :: _ => [seen_after now (classified_rows fetch) w]
                   end.
Proof.
  set (w0 := add_events _ w).
  assert (Hh : tender_history w0 = tender_history w) by done.
  destruct (search_tenders_result now false fetch w0) as (evs & Hs & Hsent & Hwrites).
  assert (Hlast : ∀ t, WriteLastRun t ∉ evs).
  { clear Hsent Hwrites. revert Hs.
    destruct fetch as [|status [rows|]];
      [rewrite search_tenders_network_failure
      | destruct (is_error_status status) eqn:Hst;
        [rewrite search_tenders_http_error by done
        | destruct (List.filter is_data_row rows) eqn:Hd;
          [rewrite search_tenders_no_data_rows by done
          | rewrite search_tenders_data_rows by (by rewrite ?Hd)]]
      | destruct (is_error_status status) eqn:Hst;
        [rewrite search_tenders_http_error by done
        | rewrite search_tenders_no_table by done]];
      intros Heq; apply (f_equal snd) in Heq; apply (f_equal trace) in Heq;
      cbn [snd] in Heq; autorewrite with world in Heq; apply app_inv_head in Heq; subst evs;
      intros t; unfold prologue, saved; set_solver. }
  exists (job_prologue w ++ evs).
  rewrite Hs. unfold file_after.
  rewrite !(seen_after_history now _ w w0 Hh), (new_after_history now _ w w0 Hh).
  split; [subst w0; f_equal; by autorewrite with world |].
  split; [by rewrite sent_app, Hsent |].
  split; [intros t; specialize (Hlast t); unfold job_prologue; set_solver |].
  rewrite (seen_after_history now _ w w0 Hh) in Hwrites.
  by rewrite writes_app, Hwrites.
Qed.

(** ** The job and the store *)

Lemma file_after_eq (now : pystr) (fetch : http_outcome) (w w' : world) :
  tender_history w' = tender_history w → history_file w' = history_file w →
  file_after now fetch w' = file_after now fetch w.
Proof.
  intros Hh Hf. unfold file_after. by rewrite (seen_after_history now _ w w' Hh), Hf.
Qed.

(** Where the job leaves the history and its file. *)
Lemma run_monitoring_job_store (now : pystr) (fetch : http_outcome) (w : world) :
  ∃ (o : outcome unit) (w' : world),
    run_monitoring_job now fetch w = (o, w')
    ∧ match last_run_file w with
      | LastRunUnreadable e =>
          o = Raise e ∧ w' = add_events [Log INFO JobStarting] w
      | _ =>
          o = Return tt
          ∧ tender_history w' = seen_after now (classified_rows fetch) w
          ∧ history_file w' = file_after now fetch w
      end.
Proof.
  rewrite run_monitoring_job_steps.
  destruct (run_monitoring_job_search now fetch w) as (evs & -> & _).
  match goal with |- context [job_notify now ?new ?ws] =>
    pose proof (keeps_history_job_notify now new ws) as Hh;
    pose proof (keeps_file_job_notify now new ws) as Hf;
    destruct (job_notify now new ws) as [[[]|e] w'] end;
    destruct (last_run_file w) as [|s|e0]; do 2 eexists; (split; [reflexivity |]);
    cbn [snd] in *; autorewrite with world in *; by rewrite ?Hh, ?Hf.
Qed.







(** ** The scheduled job (scheduler.py) *)

(** What a new scraper and its first search do, from the history [h] the
    history file holds. *)
Lemma init_then_search (now : pystr) (debug : bool) (fetch : http_outcome)
    (w : world) (h : history) :
  stored (history_file w) = Some h →
  ∃ evs : list event,
    (init_scraper ;; search_tenders now debug fetch) w
    = (Return (classify h (parsed_rows now (classified_rows fetch))).1,
       add_events evs
         (with_file (match classified_rows fetch with
                     | [] => history_file w
                     | _ :: _ =>
                         Some (JSONDocument
                                 (classify h (parsed_rows now (classified_rows fetch))).2)
                     end)
            (with_history (classify h (parsed_rows now (classified_rows fetch))).2 w))).
Proof.
  intros Hstored. unfold bind. rewrite init_scraper_spec.
  destruct (history_file w) as [[| | |h']|] eqn:Hf; simplify_eq/=.
  - destruct (search_tenders_result now debug fetch
                (with_history ∅ (add_events [Log ERROR HistoryDecodeError] w)))
      as (evs & -> & _).
    exists (Log ERROR HistoryDecodeError :: evs).
    rewrite new_after_classify, seen_after_classify. unfold file_after.
    rewrite seen_after_classify. autorewrite with world. rewrite Hf.
    destruct (classified_rows fetch); world_eq.
  - destruct (search_tenders_result now debug fetch (with_history h w))
      as (evs & -> & _).
    exists evs.
    rewrite new_after_classify, seen_after_classify. unfold file_after.
    rewrite seen_after_classify. autorewrite with world. rewrite Hf.
    destruct (classified_rows fetch); world_eq.
  - destruct (search_tenders_result now debug fetch (with_history ∅ w))
      as (evs & -> & _).
    exists evs.
    rewrite new_after_classify, seen_after_classify. unfold file_after.
    rewrite seen_after_classify. autorewrite with world. rewrite Hf.
    destruct (classified_rows fetch); world_eq.
Qed.

Lemma parsed_row_has_title (now : pystr) (r : row) (t : tender) :
  parsed_row now r = Some t → ∃ title, dict_lookup t (text "title") = Some title.
Proof.
  intros (c0 & c1 & c2 & c3 & c4 & c5 & c6 & c7 & c8 & rest & -> & ->)%parsed_row_cells.
  unfold tender_of_cells. rewrite dict_lookup_title. by eexists.
Qed.

(** The loop that logs the new records finds both keys in every record the
    scraper built. *)
Lemma scheduler_tender_lines_parsed (now : pystr) (ts : list tender) :
  Forall (fun t => ∃ r, parsed_row now r = Some t) ts →
  scheduler_tender_lines ts
  = (map (fun t => SchedulerNewTender (tender_id t) (tender_title t)) ts, None).
Proof.
  induction 1 as [|t ts [r Hr] _ IH]; [done |].
  cbn [scheduler_tender_lines map]. rewrite (parsed_row_has_id now r t Hr).
  unfold tender_title.
  destruct (parsed_row_has_title now r t Hr) as [title ->].
  by rewrite IH.
Qed.

Lemma scheduler_job_spec (now : pystr) (fetch : http_outcome) (w : world) (h : history) :
  stored (history_file w) = Some h →
  ∃ evs : list event,
    scheduler_run_monitoring_job now fetch w
    = ((classify h (parsed_rows now (classified_rows fetch))).1,
       [SchedulerStarting]
       ++ scheduler_report (classify h (parsed_rows now (classified_rows fetch))).1
       ++ [SchedulerCompleted],
       add_events evs
         (with_file (match classified_rows fetch with
                     | [] => history_file w
                     | _ :: _ =>
                         Some (JSONDocument
                                 (classify h (parsed_rows now (classified_rows fetch))).2)
                     end)
            (with_history (classify h (parsed_rows now (classified_rows fetch))).2 w))).
Proof.
  intros Hstored. unfold scheduler_run_monitoring_job.
  destruct (init_then_search now false fetch w h Hstored) as (evs & ->).
  exists evs.
  assert (Hlines := scheduler_tender_lines_parsed now
            (classify h (parsed_rows now (classified_rows fetch))).1).
  destruct ((classify h (parsed_rows now (classified_rows fetch))).1)
    as [|t new] eqn:Hnew; [done |].
  rewrite Hlines; [done |].
  apply Forall_forall. intros t' Ht'.
  assert (t' ∈ parsed_rows now (classified_rows fetch)) as Hin.
  { apply (classify_new_subseteq h). by rewrite Hnew. }
  apply parsed_rows_elem in Hin as (r & _ & Hr). by exists r.
Qed.



(** X12. When the history file is not UTF-8 the scheduled job fails before
    any request: it returns the empty list, logs its error line with the
    decoding error after its first line, and leaves the world (history file,
    log of the scraper, LINE API) exactly as it found it. *)
Theorem scheduler_swallows_undecodable_file (now : pystr) (fetch : http_outcome)
    (w : world) :
  history_file w = Some NotUTF8 →
  scheduler_run_monitoring_job now fetch w
  = ([], [SchedulerStarting; SchedulerError UnicodeDecodeError], w).
Proof.
  intros Hf. unfold scheduler_run_monitoring_job, bind.
  by rewrite init_scraper_spec, Hf.
Qed.

Lemma scheduler_swallows_undecodable_file_witness :
  history_file world_not_utf8 = Some NotUTF8
  ∧ scheduler_run_monitoring_job now0 (Response 200 (Some [row_A001])) world_not_utf8
    = ([], [SchedulerStarting; SchedulerError UnicodeDecodeError], world_not_utf8).
Proof.
  split; [reflexivity |].
  exact (scheduler_swallows_undecodable_file now0 (Response 200 (Some [row_A001]))
           world_not_utf8 eq_refl).
Defined.

(** The scheduled job when the constructor of the scraper raises. *)
Lemma scheduler_job_load_error (now : pystr) (fetch : http_outcome) (w : world) :
  stored (history_file w) = None →
  ∃ e : exn,
    scheduler_run_monitoring_job now fetch w
    = ([], [SchedulerStarting; SchedulerError e], w).
Proof.
  intros Hstored. unfold scheduler_run_monitoring_job, bind. rewrite init_scraper_spec.
  destruct (history_file w) as [[| | |h]|]; try done; by eexists.
Qed.



(** ** The notifier when a call raises *)

(** X14. A batch notification, whatever the LINE API answers. The calls are
    made in order until one raises an exception other than
    [LineBotApiError]: that exception leaves the method after the call, and
    the messages that follow are never sent. When none does, every message
    is sent and the method returns. In both cases each call goes to the user
    id of the notifier (a push), or to all users when the notifier has no
    user id or an empty one (a broadcast), the call counter counts the calls
    made, and the notifier writes no file. *)
Theorem batch_notification_outcome (user_id : option pystr) (tenders : list tender)
    (w : world) :
  ∃ (evs : list event) (w' : world),
    (send_multiple_tenders_notification user_id tenders w).2 = w'
    ∧ trace w' = trace w ++ evs
    ∧ sent evs
      = handed_over (batch_messages tenders)
          (first_escape (line_api w) (api_calls w) (length (batch_messages tenders)))
    ∧ calls evs = map (api_call user_id) (sent evs)
    ∧ api_calls w' = (api_calls w + length (sent evs))%nat
    ∧ forallb writes_no_file evs = true
    ∧ tender_history w' = tender_history w
    ∧ history_file w' = history_file w
    ∧ (send_multiple_tenders_notification user_id tenders w).1
      = match first_escape (line_api w) (api_calls w) (length (batch_messages tenders)) with
        | None => Return (match tenders with
                          | [] => true
                          | _ => accepted (line_api w (api_calls w))
                          end)
        | Some (_, e) => Raise e
        end.
Proof.
  destruct (send_multiple_outcome user_id tenders w)
    as (evs & Hrun & Hsent & Hcalls & Hfiles).
  exists evs. eexists. split; [done |].
  rewrite Hrun, Hsent, length_handed_over by apply first_escape_bound.
  rewrite <- Hsent.
  destruct (first_escape (line_api w) (api_calls w) (length (batch_messages tenders)))
    as [[k e]|]; cbn [fst snd]; autorewrite with world; done.
Qed.

Lemma batch_notification_outcome_witness :
  ∃ (evs : list event) (w' : world),
    send_multiple_tenders_notification None [tender_A001; tender_test] world_unreachable
    = (Raise ConnectionError, w')
    ∧ trace w' = evs
    ∧ sent evs = [summary_message [tender_A001; tender_test];
                  format_tender_notification tender_A001]
    ∧ calls evs = map Broadcast (sent evs)
    ∧ api_calls w' = 2%nat.
Proof.
  destruct (batch_notification_outcome None [tender_A001; tender_test] world_unreachable)
    as (evs & w' & Hw' & Htrace & Hsent & Hcalls & Hcount & _ & _ & _ & Hresult).
  assert (Hescape : first_escape (line_api world_unreachable) (api_calls world_unreachable)
                      (length (batch_messages [tender_A001; tender_test]))
                    = Some (1%nat, ConnectionError)) by reflexivity.
  rewrite Hescape in Hsent, Hresult. cbn [handed_over batch_messages map take] in Hsent.
  exists evs, w'. split.
  - rewrite <- Hw', <- Hresult. apply surjective_pairing.
  - split; [exact Htrace |]. split; [exact Hsent |]. split; [exact Hcalls |].
    rewrite Hcount, Hsent. reflexivity.
Defined.

(** ** The job when a call raises *)

(** How a job ends once its read of data/last_run.txt has returned. *)
Lemma job_outcome_after_the_read (now : pystr) (fetch : http_outcome) (w : world) :
  (∀ e, last_run_file w ≠ LastRunUnreadable e) →
  ∃ (evs : list event) (w' : world),
    run_monitoring_job now fetch w = (Return tt, w')
    ∧ trace w' = trace w ++ evs
    ∧ sent evs = handed_over (job_messages now fetch w) (job_escape now fetch w)
    ∧ calls evs = map Broadcast (sent evs)
    ∧ api_calls w' = (api_calls w + length (sent evs))%nat
    ∧ writes evs = match classified_rows fetch with
                   | [] => []
                   | _ :: _ => [seen_after now (classified_rows fetch) w]
                   end
    ∧ match job_escape now fetch w with
      | None =>
          ∃ evs0, evs = evs0 ++ [WriteLastRun now; Log INFO JobCompleted]
                  ∧ ∀ t, WriteLastRun t ∉ evs0
      | Some (_, e) =>
          (∀ t, WriteLastRun t ∉ evs) ∧ last evs = Some (Log ERROR (JobError e))
      end.
Proof.
  intros Hread. unfold job_escape, job_messages. rewrite run_monitoring_job_read by done.
  destruct (run_monitoring_job_search now fetch w)
    as (evs_s & -> & Hsent_s & Hlast_s & Hwrites_s).
  match goal with |- context [job_notify now ?new ?ws] =>
    destruct (job_notify_outcome now new ws) as (evs_n & -> & Hsent_n & Hcalls_n & Hfiles_n)
  end.
  assert (Hlast_n := writes_no_file_last_run evs_n Hfiles_n).
  assert (Hwrites_n := writes_no_file_writes evs_n Hfiles_n).
  autorewrite with world in *.
  change (line_api (with_file ?f (with_history ?h w))) with (line_api w) in *.
  change (api_calls (with_file ?f (with_history ?h w))) with (api_calls w) in *.
  assert (Hcalls_s : calls evs_s = []).
  { by apply sent_nil_calls. }
  set (new := new_after now (classified_rows fetch) w) in *.
  destruct (first_escape (line_api w) (api_calls w) (length (batch_messages new)))
    as [[k e]|] eqn:Hescape.
  - exists (evs_s ++ evs_n ++ [Log ERROR (JobError e)]). eexists. split; [done |].
    autorewrite with world.
    rewrite !sent_app, !calls_app, !writes_app, Hsent_s, Hcalls_s, Hwrites_s, Hwrites_n,
      Hcalls_n, Hsent_n.
    cbn [sent calls writes omap List.filter app]. rewrite !app_nil_r.
    split; [by rewrite <- !app_assoc |]. split; [done |]. split; [done |].
    split.
    { cbn [handed_over]. rewrite length_take.
      apply first_escape_bound in Hescape. lia. }
    split; [done |]. split.
    + intros t. rewrite !elem_of_app, list_elem_of_singleton.
      intros [H | [H | H]]; [by apply (Hlast_s t) | by apply (Hlast_n t) | done].
    + by rewrite !app_assoc, last_snoc.
  - exists (evs_s ++ evs_n ++ [WriteLastRun now; Log INFO JobCompleted]). eexists.
    split; [done |]. autorewrite with world.
    rewrite !sent_app, !calls_app, !writes_app, Hsent_s, Hcalls_s, Hwrites_s, Hwrites_n,
      Hcalls_n, Hsent_n.
    cbn [sent calls writes omap List.filter app handed_over]. rewrite !app_nil_r.
    do 5 (split; [done |]).
    exists (evs_s ++ evs_n). split; [by rewrite <- app_assoc |].
    intros t. rewrite elem_of_app.
    intros [H | H]; [by apply (Hlast_s t) | by apply (Hlast_n t)].
Qed.




(** ** The notification of a scraped record *)

Lemma dict_lookup_organization (v1 v2 v3 v4 v5 v6 v7 v8 v9 v10 v11 : pystr) :
  dict_lookup
    [ (text "id", v1); (text "title", v2); (text "organization", v3);
      (text "transmission", v4); (text "tender_method", v5);
      (text "tender_type", v6); (text "announcement_date", v7);
      (text "deadline", v8); (text "budget", v9); (text "link", v10);
      (text "found_date", v11) ] (text "organization") = Some v3.
Proof. vm_compute. reflexivity. Qed.

Lemma dict_lookup_date (v1 v2 v3 v4 v5 v6 v7 v8 v9 v10 v11 : pystr) :
  dict_lookup
    [ (text "id", v1); (text "title", v2); (text "organization", v3);
      (text "transmission", v4); (text "tender_method", v5);
      (text "tender_type", v6); (text "announcement_date", v7);
      (text "deadline", v8); (text "budget", v9); (text "link", v10);
      (text "found_date", v11) ] (text "date") = None.
Proof. vm_compute. reflexivity. Qed.

Lemma format_tender_of_cells (now : pystr) (c0 c1 c2 c3 c4 c5 c6 c7 c8 : cell) :
  let t := tender_of_cells now c0 c1 c2 c3 c4 c5 c6 c7 c8 in
  format_tender_notification t
  = text "🔔 新招標公告通知 🔔" ++ [LF; LF]
    ++ text "📋 標案編號: " ++ tender_id t ++ [LF]
    ++ text "📝 標案名稱: " ++ tender_title t ++ [LF]
    ++ text "🏢 招標機關: " ++ strip (cell_text c1) ++ [LF]
    ++ text "📅 公告日期: " ++ text "N/A" ++ [LF]
    ++ link_lines (tender_link c2)
    ++ [LF] ++ text "此通知由自動監控系統發送。".
Proof.
  intros t. subst t. rewrite format_link_lines.
  unfold dict_get, tender_id, tender_title, tender_of_cells.
  cbv zeta.
  by rewrite dict_lookup_id, dict_lookup_title, dict_lookup_organization, dict_lookup_date,
    dict_lookup_link.
Qed.

(** X16. The notification of a record the scraper built from a row. The id,
    the title and the organization are those of the record, never the
    placeholder; the date line always shows the placeholder [N/A], whatever
    the row holds as its announcement date, because the scraper stores that
    date under the key [announcement_date] and the formatter reads the key
    [date]; the link lines are there when the third cell has an anchor with
    an [href]. The text depends on the second and third cell of the row
    alone. *)
Theorem scraped_record_notification (now : pystr) (r : row) (t : tender)
    (org_cell tender_cell : cell) :
  parsed_row now r = Some t →
  r !! 1%nat = Some org_cell →
  r !! 2%nat = Some tender_cell →
  dict_lookup t (text "date") = None
  ∧ format_tender_notification t
    = text "🔔 新招標公告通知 🔔" ++ [LF; LF]
      ++ text "📋 標案編號: " ++ tender_id t ++ [LF]
      ++ text "📝 標案名稱: " ++ tender_title t ++ [LF]
      ++ text "🏢 招標機關: " ++ strip (cell_text org_cell) ++ [LF]
      ++ text "📅 公告日期: " ++ text "N/A" ++ [LF]
      ++ link_lines (tender_link tender_cell)
      ++ [LF] ++ text "此通知由自動監控系統發送。"
  ∧ (∀ (now' : pystr) (r' : row) (t' : tender),
       parsed_row now' r' = Some t' →
       r' !! 1%nat = Some org_cell →
       r' !! 2%nat = Some tender_cell →
       format_tender_notification t' = format_tender_notification t).
Proof.
  intros (c0 & c1 & c2 & c3 & c4 & c5 & c6 & c7 & c8 & rest & -> & ->)%parsed_row_cells.
  intros [= <-] [= <-]. split; [| split].
  - unfold tender_of_cells. apply dict_lookup_date.
  - apply format_tender_of_cells.
  - intros now' r' t'.
    intros (c0' & c1' & c2' & c3' & c4' & c5' & c6' & c7' & c8' & rest' & -> & ->)%parsed_row_cells.
    intros [= ->] [= ->].
    rewrite !format_tender_of_cells.
    unfold tender_id, tender_title, tender_of_cells.
    by rewrite !dict_lookup_id, !dict_lookup_title.
Qed.

Lemma scraped_record_notification_witness :
  parsed_row now0 row_A001 = Some tender_A001
  ∧ dict_lookup tender_A001 (text "announcement_date") = Some (text "113/04/02")
  ∧ dict_lookup tender_A001 (text "date") = None
  ∧ format_tender_notification tender_A001
    = text "🔔 新招標公告通知 🔔

📋 標案編號: A001
📝 標案名稱: 水湳智慧城市建設計畫
🏢 招標機關: 交通局
📅 公告日期: N/A

🔗 詳細資訊: https://web.pcc.gov.tw/tps/tender/A001

此通知由自動監控系統發送。".
Proof.
  split; [reflexivity |]. split; [vm_compute; reflexivity |].
  destruct (scraped_record_notification now0 row_A001 tender_A001
              (td "交通局") (td_link "A001" "水湳智慧城市建設計畫" "/tps/tender/A001")
              eq_refl eq_refl eq_refl) as (Hdate & Hformat & _).
  split; [exact Hdate |]. rewrite Hformat. vm_compute. reflexivity.
Defined.

(** ** The summary of a batch *)

(** X17. The summary of a batch begins with the number of records and has,
    for the record at each position, one line with its number, counted from
    1, and its title, or [N/A] when the record has no title. *)
Theorem summary_lists_every_title (tenders : list tender) (i : nat) (t : tender) :
  tenders !! i = Some t →
  starts_with (text "🔔 發現 " ++ str_of_nat (length tenders)
               ++ text " 個新招標公告符合您的關鍵字") (summary_message tenders) = true
  ∧ occurs (str_of_nat (S i) ++ text ". " ++ dict_get t "title" (text "N/A") ++ [LF])
      (summary_message tenders) = true.
Proof.
  intros Hi. unfold summary_message. split.
  - rewrite summary_head, <- !app_assoc. apply starts_with_prefix.
    do 2 apply prefix_app. by eexists.
  - destruct (summary_lines_at 1 i tenders t Hi) as (before & after & ->).
    cbn [Nat.add]. do 6 apply occurs_app_l. apply occurs_app_r, occurs_app.
Qed.

Lemma summary_lists_every_title_witness :
  [tender_A001; tender_test] !! 1%nat = Some tender_test
  ∧ occurs (text "2. 水湳智慧城市建設計畫" ++ [LF])
      (summary_message [tender_A001; tender_test]) = true.
Proof.
  split; [reflexivity |].
  exact (proj2 (summary_lists_every_title [tender_A001; tender_test] 1 tender_test eq_refl)).
Defined.

(** ** The dates of the query *)

Lemma split_on_no_sep (sep : N) (s : pystr) : sep ∉ s → split_on sep s = [s].
Proof.
  induction s as [|c s IH]; [done |].
  intros [Hc Hs]%not_elem_of_cons. cbn [split_on].
  destruct (N.eqb_spec c sep) as [-> | _]; [done |]. by rewrite IH.
Qed.

Lemma split_on_app (sep : N) (s rest : pystr) :
  sep ∉ s → split_on sep (s ++ sep :: rest) = s :: split_on sep rest.
Proof.
  induction s as [|c s IH]; cbn [split_on app].
  - by rewrite N.eqb_refl.
  - intros [Hc Hs]%not_elem_of_cons.
    destruct (N.eqb_spec c sep) as [-> | _]; [done |]. by rewrite IH.
Qed.

Lemma digits_no_slash (d : Decimal.uint) :
  SLASH ∉ bytes_of_string (NilEmpty.string_of_uint d).
Proof.
  induction d; [apply not_elem_of_nil | ..];
    apply not_elem_of_cons; (split; [done | exact IHd]).
Qed.

Lemma str_of_Z_no_slash (z : Z) : SLASH ∉ str_of_Z z.
Proof.
  unfold str_of_Z.
  assert (Hu : ∀ d, SLASH ∉ bytes_of_string (NilZero.string_of_uint d)).
  { intros [|d|d|d|d|d|d|d|d|d|d];
      [by apply not_elem_of_cons; split; [| apply not_elem_of_nil] | ..];
      apply not_elem_of_cons; (split; [done | apply digits_no_slash]). }
  destruct (Z.to_int z) as [d|d]; cbn [NilZero.string_of_int]; [apply Hu |].
  apply not_elem_of_cons. split; [done | apply Hu].
Qed.

Lemma format_02d_no_slash (n : Z) : SLASH ∉ format_02d n.
Proof.
  unfold format_02d. destruct (_ && _)%Z; [| apply str_of_Z_no_slash].
  apply not_elem_of_cons. split; [done | apply str_of_Z_no_slash].
Qed.

(** The parts [split('/')] gives on a formatted date. *)
Lemma split_formatted_date (target_date : date) :
  split_on SLASH (_get_formatted_date target_date)
  = [ str_of_Z (year target_date - 1911); format_02d (month target_date);
      format_02d (day target_date) ].
Proof.
  unfold _get_formatted_date. cbv zeta. cbn [app].
  rewrite split_on_app by apply str_of_Z_no_slash.
  rewrite split_on_app by apply format_02d_no_slash.
  by rewrite split_on_no_sep by apply format_02d_no_slash.
Qed.

Lemma read_decimal_str_of_Z (z : Z) : read_decimal (str_of_Z z) = Some z.
Proof.
  unfold read_decimal, str_of_Z, bytes_of_string.
  rewrite map_map, (map_ext _ id), map_id by apply ascii_N_embedding.
  rewrite string_of_list_ascii_of_string, NilZero.isi.
  - cbn [fmap option_fmap option_map]. by rewrite DecimalZ.of_to.
  - destruct z; [done | |]; intros [= H]; by apply DecimalPos.Unsigned.to_uint_nonnil in H.
  - destruct z; [done | |]; intros [= H]; by apply DecimalPos.Unsigned.to_uint_nonnil in H.
Qed.

(** X18. The dates of the query. [search_tenders] formats each date in the
    ROC calendar, splits the text at the slashes, reads the year back and
    adds 1911 to it. For a date [datetime] can hold (a year from 1 to 9999)
    and an [int] that reads back what [str] writes for the ROC years of such
    dates, this never raises, also for a date before 1912, whose ROC year is
    not positive; and the date of the URL is the Gregorian date: the year as
    it is, the month and the day on two digits. *)
Theorem query_date_is_gregorian (int_of_str : pystr → option Z) (target_date : date) :
  (∀ z : Z, (-1910 ≤ z ≤ 8088)%Z → int_of_str (str_of_Z z) = Some z) →
  (1 ≤ year target_date ≤ 9999)%Z →
  query_date int_of_str target_date
  = DateURL (str_of_Z (year target_date) ++ [SLASH] ++ format_02d (month target_date)
             ++ [SLASH] ++ format_02d (day target_date)).
Proof.
  intros Hint Hyear. unfold query_date. cbv zeta. rewrite split_formatted_date.
  unfold date_url. cbn [lookup list_lookup]. rewrite Hint by lia.
  by rewrite Z.sub_add.
Qed.

Lemma query_date_is_gregorian_witness :
  (1 ≤ year (Date 1900 12 31) ≤ 9999)%Z
  ∧ _get_formatted_date (Date 1900 12 31) = text "-11/12/31"
  ∧ query_date read_decimal (Date 1900 12 31) = DateURL (text "1900/12/31").
Proof.
  assert (Hyear : (1 ≤ year (Date 1900 12 31) ≤ 9999)%Z) by (cbn; lia).
  split; [exact Hyear |]. split; [vm_compute; reflexivity |].
  exact (query_date_is_gregorian read_decimal (Date 1900 12 31)
           (fun z _ => read_decimal_str_of_Z z) Hyear).
Defined.

(** ** The earlier scraper *)

Lemma dict_lookup_old (v1 v2 v3 v4 v5 v6 : pystr) :
  let t := [ (text "id", v1); (text "title", v2); (text "organization", v3);
             (text "date", v4); (text "link", v5); (text "found_date", v6) ] in
  dict_lookup t (text "id") = Some v1
  ∧ dict_lookup t (text "title") = Some v2
  ∧ dict_lookup t (text "organization") = Some v3
  ∧ dict_lookup t (text "date") = Some v4
  ∧ dict_lookup t (text "link") = Some v5.
Proof. vm_compute. repeat split. Qed.

(** X19. [_parse_tender_row] of the earlier scraper never fails and logs
    nothing. It returns [None] exactly for a row without an id element. For
    any other row it returns a record whose notification shows the trimmed
    id, the trimmed title and organization or their stand-ins
    ([Unknown Title], [Unknown Organization]), and the trimmed date: this
    scraper stores the date under the key the formatter reads. A row without
    a date element gives an empty date, not the placeholder [N/A]. The link
    is the base URL followed by the [href] as it is. *)
Theorem old_scraper_record_notification (now : pystr) (r : case_row) (w : world) :
  ∃ parsed : option tender,
    web_scraper_old._parse_tender_row now r w = (Return parsed, w)
    ∧ (parsed = None ↔ tenderCase_id r = None)
    ∧ ∀ t, parsed = Some t →
        format_tender_notification t
        = text "🔔 新招標公告通知 🔔" ++ [LF; LF]
          ++ text "📋 標案編號: " ++ strip (default [] (tenderCase_id r)) ++ [LF]
          ++ text "📝 標案名稱: "
          ++ from_option strip (text "Unknown Title") (tenderCase_title r) ++ [LF]
          ++ text "🏢 招標機關: "
          ++ from_option strip (text "Unknown Organization") (tenderCase_org r) ++ [LF]
          ++ text "📅 公告日期: " ++ from_option strip [] (tenderCase_date r) ++ [LF]
          ++ link_lines
               (match case_anchor r with
                | Some attrs =>
                    from_option (app web_scraper_old.base_url) []
                      (dict_lookup attrs (text "href"))
                | None => []
                end)
          ++ [LF] ++ text "此通知由自動監控系統發送。".
Proof.
  unfold web_scraper_old._parse_tender_row.
  destruct r as [[id_text|] title org date anchor]; cbn [tenderCase_id]; run.
  - eexists. split; [done |]. split; [done |]. intros t [= <-].
    rewrite format_link_lines. unfold dict_get.
    match goal with |- context [dict_lookup ?d _] =>
      match d with
      | [ (_, ?v1); (_, ?v2); (_, ?v3); (_, ?v4); (_, ?v5); (_, ?v6) ] =>
          destruct (dict_lookup_old v1 v2 v3 v4 v5 v6) as (-> & -> & -> & -> & ->)
      end
    end.
    destruct title, org, date, anchor as [attrs|]; try reflexivity;
      by destruct (dict_lookup attrs (text "href")).
  - eexists. split; [done |]. split; [done |]. by intros t [=].
Qed.

Lemma old_scraper_record_notification_witness :
  ∃ t : tender,
    web_scraper_old._parse_tender_row now0 case_row_bare world0 = (Return (Some t), world0)
    ∧ format_tender_notification t
      = text "🔔 新招標公告通知 🔔

📋 標案編號: A002
📝 標案名稱: Unknown Title
🏢 招標機關: Unknown Organization
📅 公告日期: 

此通知由自動監控系統發送。".
Proof.
  destruct (old_scraper_record_notification now0 case_row_bare world0)
    as ([t|] & Hrun & Hnone & Hformat).
  - exists t. split; [exact Hrun |]. rewrite (Hformat t eq_refl). vm_compute. reflexivity.
  - exfalso. by pose proof (proj1 Hnone eq_refl).
Defined.

(** ** The item number of a data row *)

Lemma match_digits_end_spec (s : pystr) :
  match_digits_end s = true → forallb isdecimal s = true ∨ last s = Some LF.
Proof.
  induction s as [|c s IH]; [by left |]. cbn [match_digits_end forallb].
  destruct (isdecimal c).
  - intros [Hall | Hlast]%IH; [by left | right].
    destruct s; [done | exact Hlast].
  - intros [->%N.eqb_eq Hs]%andb_true_iff. right. by destruct s.
Qed.

Lemma match_digits_end_decimal (s : pystr) :
  forallb isdecimal s = true → match_digits_end s = true.
Proof.
  induction s as [|c s IH]; [done |]. cbn [match_digits_end forallb].
  intros [-> Hs]%andb_true_iff. by apply IH.
Qed.

Lemma re_match_integer_strip (s : pystr) :
  re_match_integer (strip s) = true
  ↔ strip s ≠ [] ∧ forallb isdecimal (strip s) = true.
Proof.
  split.
  - destruct (strip s) as [|c s'] eqn:Hs; [done |]. cbn [re_match_integer forallb].
    intros [Hc [Hall | Hlast]%match_digits_end_spec]%andb_true_iff.
    + by rewrite Hc, Hall.
    + exfalso. assert (Hl : last (strip s) = Some LF).
      { rewrite Hs. destruct s'; [done | exact Hlast]. }
      apply strip_last in Hl. by rewrite isspace_LF in Hl.
  - destruct (strip s) as [|c s']; [by intros [? _] |]. cbn [re_match_integer forallb].
    intros [_ [-> Hall]%andb_true_iff]. by apply match_digits_end_decimal.
Qed.

(** X20. The rows [search_tenders] takes for data rows are exactly the rows
    with at least 9 cells whose first cell, trimmed, is a non-empty string of
    decimal digits. The pattern [^\d+$] also matches a string that ends with
    a line feed after the digits; after [strip] no string ends with one, so
    that never lets a row in. The digits are those of Unicode: an item number
    in fullwidth digits qualifies. *)
Theorem data_row_iff_decimal_item_number (r : row) :
  is_data_row r = true
  ↔ (9 ≤ length r)%nat
    ∧ ∃ c0 : cell,
        head r = Some c0
        ∧ strip (cell_text c0) ≠ []
        ∧ forallb isdecimal (strip (cell_text c0)) = true.
Proof.
  unfold is_data_row. cbv zeta. destruct r as [|c0 r'].
  - split; [done |]. by intros (_ & c0 & [=] & _).
  - rewrite andb_true_iff, Nat.leb_le, re_match_integer_strip. cbn [head]. split.
    + intros [Hlen Hdigits]. split; [done |]. by exists c0.
    + intros (Hlen & c & [= <-] & Hdigits). by split.
Qed.

Lemma data_row_iff_decimal_item_number_witness :
  is_data_row row_fullwidth = true
  ∧ strip (cell_text (td " １２ ")) = [0xFF11; 0xFF12]
  ∧ re_match_integer (text "12" ++ [LF]) = true
  ∧ is_data_row row_header = false.
Proof.
  split; [| by vm_compute].
  apply (proj2 (data_row_iff_decimal_item_number row_fullwidth)).
  split; [simpl; lia |]. exists (td " １２ "). by vm_compute.
Defined.
